(** * Analytics core of the learning-management system

    A shallow embedding of [models/quiz.py] and [models/syllabus.py]
    (entity records, the Quiz and Syllabus aggregates and their derived
    metrics), followed by the properties the specification states about
    them.

    Conventions of the embedding:
    - a Python [float] is an exact rational ([Q]); the specification itself
      speaks of "a real number".  True division is partial: it raises
      [ZeroDivisionError] on a zero divisor, exactly as Python's [/] does;
    - a Python [str] is a [string]; [str.lower] lowers the letters A-Z;
    - [Optional[T]] is [option T];
    - a dataclass is a record, its methods are functions of the record that
      may raise ([outcome]);
    - a class with mutable attributes ([Quiz], [Syllabus]) is a record of its
      attributes, and each method is a computation that receives the
      object's state and gives back an outcome together with the state
      after the call ([method]);
    - [set(...)] is a [gset]; [list(set(...))] enumerates it. *)

From Stdlib Require Import QArith String Ascii List ZArith.
From stdpp Require Import base list strings gmap.

Local Open Scope string_scope.
Local Open Scope list_scope.

(** ** Outcomes and methods *)

(** The only builtin exception the arithmetic of the core can raise. *)
Inductive exn : Type :=
| ZeroDivisionError.

(** Result of evaluating an expression: a value, or a raised exception. *)
Inductive outcome (A : Type) : Type :=
| Return (a : A)
| Raise (e : exn).
Arguments Return {A} a.
Arguments Raise {A} e.

#[global] Instance outcome_ret : MRet outcome := fun _ a => Return a.
#[global] Instance outcome_bind : MBind outcome := fun _ _ k c =>
  match c with
  | Return a => k a
  | Raise e => Raise e
  end.

(** A method of an object whose state has type [S]: the call yields an
    outcome and the state the object is left in. *)
Definition method (S A : Type) : Type := S → outcome A * S.

(** Value of a call, and state of the object after it. *)
Definition eval {S A} (m : method S A) (self : S) : outcome A := (m self).1.
Definition exec {S A} (m : method S A) (self : S) : S := (m self).2.

#[global] Instance method_ret {S} : MRet (method S) :=
  fun _ a self => (Return a, self).
#[global] Instance method_bind {S} : MBind (method S) := fun _ _ k m self =>
  match m self with
  | (Return a, self') => k a self'
  | (Raise e, self') => (Raise e, self')
  end.

(** Read an attribute: [self.attr]. *)
Definition attr {S A} (f : S → A) : method S A :=
  fun self => (Return (f self), self).
(** Assign attributes: the state becomes [f self]. *)
Definition assign {S} (f : S → S) : method S () :=
  fun self => (Return (), f self).
(** Evaluate an expression that does not touch [self]. *)
Definition expr {S A} (c : outcome A) : method S A :=
  fun self => (c, self).

(** A call leaves the object as it found it. *)
Definition read_only {S A} (m : method S A) : Prop :=
  ∀ self, exec m self = self.
(** A second call, made right after the first, returns what the first did. *)
Definition repeatable {S A} (m : method S A) : Prop :=
  ∀ self, eval m (exec m self) = eval m self.

(** A pure read: both of the above. *)
Definition pure_read {S A} (m : method S A) : Prop :=
  read_only m ∧ repeatable m.

(** ** Python builtins *)

Module Py.

(** [a / b] on floats. *)
Definition truediv (a b : Q) : outcome Q :=
  if Qeq_bool b 0 then Raise ZeroDivisionError else Return (a / b)%Q.

(** [a < b] on floats. *)
Definition less (a b : Q) : bool :=
  match (a ?= b)%Q with
  | Lt => true
  | _ => false
  end.

(** [len(l)], as the number a division sees. *)
Definition len {A} (l : list A) : Q := inject_Z (Z.of_nat (length l)).

(** [sum(g)] over a generator [g]: starts from [0], adds from the left,
    and an element that raises ends the sum. *)
Fixpoint sum_from (acc : Q) (g : list (outcome Q)) : outcome Q :=
  match g with
  | [] => Return acc
  | c :: g' => x ← c; sum_from (acc + x)%Q g'
  end.
Definition sum (g : list (outcome Q)) : outcome Q := sum_from 0%Q g.

(** [next((x for x in l if cond(x)), None)]. *)
Definition next_or_none {A} (cond : A → bool) (l : list A) : option A :=
  List.find cond l.

(** Truth value of a list ([if not l]) and of an [Optional[str]]
    ([if o]): the empty list, [None] and the empty string are false. *)
Definition truthy_list {A} (l : list A) : bool :=
  match l with
  | [] => false
  | _ :: _ => true
  end.
Definition truthy_str (s : string) : bool :=
  match s with
  | EmptyString => false
  | String _ _ => true
  end.
Definition truthy_opt_str (o : option string) : bool :=
  match o with
  | None => false
  | Some s => truthy_str s
  end.

(** [c.lower()] on one character. *)
Definition lower_char (c : ascii) : ascii :=
  if (Ascii.leb "A" c && Ascii.leb c "Z")%bool
  then ascii_of_nat (nat_of_ascii c + 32)
  else c.

(** [s.lower()]. *)
Fixpoint lower (s : string) : string :=
  match s with
  | EmptyString => EmptyString
  | String c s' => String (lower_char c) (lower s')
  end.

(** [s.startswith(p)]. *)
Fixpoint startswith (p s : string) : bool :=
  match p, s with
  | EmptyString, _ => true
  | String _ _, EmptyString => false
  | String a p', String b s' => Ascii.eqb a b && startswith p' s'
  end.

(** [needle in hay] on strings: [needle] occurs at some position. *)
Fixpoint contains (needle hay : string) : bool :=
  startswith needle hay ||
  match hay with
  | EmptyString => false
  | String _ hay' => contains needle hay'
  end.

(** [any(g)]. *)
Definition any (g : list bool) : bool := existsb (fun b => b) g.

(** [list(set(l))]: the distinct elements, in the order of the set. *)
Definition list_of_set (l : list string) : list string :=
  elements (list_to_set l : gset string).

End Py.

(** ** models/quiz.py *)

Module Question.
Record t : Type := mk {
  question_id : Z;
  question_text : string;
  correct_answer : string;
  points : Q;
  mapped_topic : option string;
  secondary_topics : list string
}.
End Question.

Module StudentResponse.
Record t : Type := mk {
  question_id : Z;
  response_text : string;
  points_earned : Q;
  is_correct : bool
}.

Definition get_score_percentage (self : t) (question : Question.t) : outcome Q :=
  if Qeq_bool (Question.points question) 0 then Return 0%Q
  else
    ratio ← Py.truediv (points_earned self) (Question.points question);
    mret (ratio * 100)%Q.
End StudentResponse.

Module Student.
Record t : Type := mk {
  student_id : string;
  name : string;
  section : string;
  responses : list StudentResponse.t
}.

Definition get_total_score (self : t) (questions : list Question.t) : outcome Q :=
  Py.sum (map (fun r => Return (StudentResponse.points_earned r)) (responses self)).

Definition get_total_possible (self : t) (questions : list Question.t) : outcome Q :=
  Py.sum (map (fun q => Return (Question.points q)) questions).

Definition get_percentage (self : t) (questions : list Question.t) : outcome Q :=
  total ← get_total_possible self questions;
  if Qeq_bool total 0 then Return 0%Q
  else
    score ← get_total_score self questions;
    ratio ← Py.truediv score total;
    mret (ratio * 100)%Q.

(** The body of the [for response in self.responses] loop, on the
    accumulated [weak_topics]. *)
Definition weak_topics_step (questions : list Question.t) (threshold : Q)
    (weak_topics : list string) (response : StudentResponse.t)
    : outcome (list string) :=
  let question :=
    Py.next_or_none
      (fun q => Z.eqb (Question.question_id q) (StudentResponse.question_id response))
      questions in
  match question with
  | Some question =>
      match Question.mapped_topic question with
      | Some topic =>
          if Py.truthy_str topic then
            score_pct ← StudentResponse.get_score_percentage response question;
            if Py.less score_pct threshold
            then Return (weak_topics ++ [topic])
            else Return weak_topics
          else Return weak_topics
      | None => Return weak_topics
      end
  | None => Return weak_topics
  end.

Fixpoint weak_topics_loop (questions : list Question.t) (threshold : Q)
    (weak_topics : list string) (responses : list StudentResponse.t)
    : outcome (list string) :=
  match responses with
  | [] => Return weak_topics
  | response :: rest =>
      weak_topics' ← weak_topics_step questions threshold weak_topics response;
      weak_topics_loop questions threshold weak_topics' rest
  end.

Definition get_weak_topics (self : t) (questions : list Question.t)
    (threshold : Q) : outcome (list string) :=
  weak_topics ← weak_topics_loop questions threshold [] (responses self);
  mret (Py.list_of_set weak_topics).

(** The default of the [threshold] argument. *)
Definition default_threshold : Q := 70.
End Student.

Module Quiz.
Record t : Type := mk {
  name : string;
  course_name : string;
  date : Z;
  questions : list Question.t;
  students : list Student.t
}.

(** [__init__]; [now] is what [datetime.now()] answers. *)
Definition init (name course_name : string) (date : option Z) (now : Z) : t :=
  {| name := name;
     course_name := course_name;
     date := match date with Some d => d | None => now end;
     questions := [];
     students := [] |}.

Definition set_questions (qs : list Question.t) (self : t) : t :=
  {| name := name self; course_name := course_name self; date := date self;
     questions := qs; students := students self |}.
Definition set_students (ss : list Student.t) (self : t) : t :=
  {| name := name self; course_name := course_name self; date := date self;
     questions := questions self; students := ss |}.

Definition add_question (question : Question.t) : method t () :=
  assign (fun self => set_questions (questions self ++ [question]) self).

Definition add_student (student : Student.t) : method t () :=
  assign (fun self => set_students (students self ++ [student]) self).

Definition get_question_by_id (question_id : Z) : method t (option Question.t) :=
  questions ← attr questions;
  mret (Py.next_or_none (fun q => Z.eqb (Question.question_id q) question_id) questions).

Definition get_student_by_id (student_id : string) : method t (option Student.t) :=
  students ← attr students;
  mret (Py.next_or_none (fun s => String.eqb (Student.student_id s) student_id) students).

Definition get_class_average : method t Q :=
  students ← attr students;
  if negb (Py.truthy_list students) then mret 0%Q
  else
    questions ← attr questions;
    total_percentage ←
      expr (Py.sum (map (fun s => Student.get_percentage s questions) students));
    expr (Py.truediv total_percentage (Py.len students)).

Definition get_students_by_section (section : string) : method t (list Student.t) :=
  students ← attr students;
  mret (List.filter (fun s => String.eqb (Student.section s) section) students).

Definition get_section_average (section : string) : method t Q :=
  section_students ← get_students_by_section section;
  if negb (Py.truthy_list section_students) then mret 0%Q
  else
    questions ← attr questions;
    total_percentage ←
      expr (Py.sum (map (fun s => Student.get_percentage s questions) section_students));
    expr (Py.truediv total_percentage (Py.len section_students)).

Definition get_all_sections : method t (list string) :=
  students ← attr students;
  mret (Py.list_of_set (map Student.section students)).
End Quiz.

(** ** models/syllabus.py *)

Module Topic.
Record t : Type := mk {
  name : string;
  description : option string;
  week : option Z;
  subtopics : list string
}.

Definition contains_keyword (self : t) (keyword : string) : bool :=
  let keyword_lower := Py.lower keyword in
  if Py.contains keyword_lower (Py.lower (name self)) then true
  else if
    match description self with
    | Some d => Py.truthy_str d && Py.contains keyword_lower (Py.lower d)
    | None => false
    end
  then true
  else Py.any (map (fun sub => Py.contains keyword_lower (Py.lower sub)) (subtopics self)).
End Topic.

Module Syllabus.
Record t : Type := mk {
  course_name : string;
  course_code : string;
  topics : list Topic.t;
  raw_text : string
}.

Definition init (course_name course_code : string) : t :=
  {| course_name := course_name; course_code := course_code;
     topics := []; raw_text := "" |}.

Definition set_topics (ts : list Topic.t) (self : t) : t :=
  {| course_name := course_name self; course_code := course_code self;
     topics := ts; raw_text := raw_text self |}.

Definition add_topic (topic : Topic.t) : method t () :=
  assign (fun self => set_topics (topics self ++ [topic]) self).

Definition get_topic_by_name (name : string) : method t (option Topic.t) :=
  topics ← attr topics;
  mret (Py.next_or_none
          (fun t => String.eqb (Py.lower (Topic.name t)) (Py.lower name)) topics).

Definition search_topics (keyword : string) : method t (list Topic.t) :=
  topics ← attr topics;
  mret (List.filter (fun t => Topic.contains_keyword t keyword) topics).

Definition get_all_topic_names : method t (list string) :=
  topics ← attr topics;
  mret (map Topic.name topics).
End Syllabus.

(** ** The specification's wording

    Predicates and functions that follow the text of the specification rather than the
    code; the theorems below compare the two. *)

Module Spec.

(** The sum of a sequence of numbers. *)
Definition total (l : list Q) : Q := fold_right Qplus 0%Q l.

(** The arithmetic mean of a sequence of numbers. *)
Definition mean (l : list Q) : Q := (total l / Py.len l)%Q.

(** "sum of [points_earned] over all of the student's responses". *)
Definition studentTotalScore (s : Student.t) : Q :=
  total (map StudentResponse.points_earned (Student.responses s)).

(** "sum of [points] over the quiz's question list". *)
Definition studentTotalPossible (questions : list Question.t) : Q :=
  total (map Question.points questions).

(** "[k] is a substring of [s]". *)
Definition substring (k s : string) : Prop :=
  ∃ pre post, s = String.append pre (String.append k post).

(** "case-insensitive substring match against [name], then [description]
    if present, then any entry of [subtopics]". *)
Definition containsKeyword (t : Topic.t) (keyword : string) : Prop :=
  substring (Py.lower keyword) (Py.lower (Topic.name t))
  ∨ (∃ d, Topic.description t = Some d
          ∧ substring (Py.lower keyword) (Py.lower d))
  ∨ (∃ sub, sub ∈ Topic.subtopics t
            ∧ substring (Py.lower keyword) (Py.lower sub)).

(** The response [r] resolves to a question (the one found in [questions]
    by its [question_id]) that is mapped to [topic], and its score
    percentage on that question is strictly below [threshold]. *)
Definition scores_below (questions : list Question.t) (threshold : Q)
    (r : StudentResponse.t) (topic : string) : Prop :=
  ∃ q,
    Py.next_or_none
      (fun q' => Z.eqb (Question.question_id q') (StudentResponse.question_id r))
      questions = Some q
    ∧ Question.mapped_topic q = Some topic
    ∧ ∃ pct, StudentResponse.get_score_percentage r q = Return pct
             ∧ (pct < threshold)%Q.

(** A weak topic as the specification words it: the mapped topic only has
    to be present. *)
Definition weak_topic_as_specified (s : Student.t) (questions : list Question.t)
    (threshold : Q) (topic : string) : Prop :=
  ∃ r, r ∈ Student.responses s ∧ scores_below questions threshold r topic.

(** A weak topic as the code decides it: the topic name is also required
    to be non-empty, since an empty string counts as no topic. *)
Definition weak_topic (s : Student.t) (questions : list Question.t)
    (threshold : Q) (topic : string) : Prop :=
  topic ≠ ""
  ∧ ∃ r, r ∈ Student.responses s ∧ scores_below questions threshold r topic.

End Spec.

(** An outcome that is a number equal to [v]. *)
Definition returns_num (c : outcome Q) (v : Q) : Prop :=
  match c with
  | Return x => (x == v)%Q
  | Raise _ => False
  end.

(** An outcome that is a value, not an exception. *)
Definition succeeds {A} (c : outcome A) : Prop :=
  match c with
  | Return _ => True
  | Raise _ => False
  end.

(** ** Scenarios *)

Module Scenario.

(** The example of the specification: two questions worth 10 points,
    student S1 earns 4 and 9. *)
Definition recursion_q : Question.t :=
  Question.mk 1 "What is the base case?" "n = 0" 10 (Some "Recursion") [].
Definition arrays_q : Question.t :=
  Question.mk 2 "Index of the first element?" "0" 10 (Some "Arrays") [].
Definition S1 : Student.t :=
  Student.mk "S1" "Ada" "A"
    [StudentResponse.mk 1 "n = 1" 4 false; StudentResponse.mk 2 "0" 9 true].

(** Two students, in sections A and B, scoring 100% and 50%. *)
Definition full_marks : Student.t :=
  Student.mk "S2" "Bea" "A" [StudentResponse.mk 1 "n = 0" 10 true].
Definition half_marks : Student.t :=
  Student.mk "S3" "Cy" "B" [StudentResponse.mk 1 "n" 5 false].
Definition two_sections : Quiz.t :=
  Quiz.mk "Quiz 1" "CS 101" 0 [recursion_q] [full_marks; half_marks].

(** A question whose mapped topic is the empty string, answered with no
    points earned. *)
Definition untitled_q : Question.t :=
  Question.mk 7 "Name a loop construct." "for" 10 (Some "") [].
Definition S4 : Student.t :=
  Student.mk "S4" "Dee" "A" [StudentResponse.mk 7 "goto" 0 false].

(** A response that earned more points than the question is worth. *)
Definition bonus_response : StudentResponse.t :=
  StudentResponse.mk 1 "n = 0, with proof" 12 true.

(** Topics of a small syllabus. *)
Definition iteration : Topic.t :=
  Topic.mk "Iteration" (Some "Repeating a block of code") (Some 3%Z)
    ["While"; "For Loops"].
Definition functions : Topic.t :=
  Topic.mk "Functions" None (Some 4%Z) ["Parameters"; "Return values"].
Definition cs101 : Syllabus.t :=
  Syllabus.mk "Intro to Programming" "CS 101"
    [iteration; functions; iteration] "".

End Scenario.

(** ** Further scenarios *)

Module Cases.

(** The quiz of the specification's example, with its one student. *)
Definition two_questions : Quiz.t :=
  Quiz.mk "Quiz 1" "CS 101" 0
    [Scenario.recursion_q; Scenario.arrays_q] [Scenario.S1].

(** A second question that reuses the id of the recursion question. *)
Definition recursion_again : Question.t :=
  Question.mk 1 "State the recursive case." "n - 1" 5 (Some "Induction") [].

(** A question that is not graded, answered correctly. *)
Definition ungraded_q : Question.t :=
  Question.mk 3 "Did you read chapter 1?" "yes" 0 (Some "Reading") [].
Definition S5 : Student.t :=
  Student.mk "S5" "Eli" "B" [StudentResponse.mk 3 "yes" 0 true].

(** A student who reuses the id of S1. *)
Definition S1_again : Student.t :=
  Student.mk "S1" "Ada B." "B" [StudentResponse.mk 1 "n = 0" 10 true].

(** A topic whose name differs from [Scenario.functions] in case only. *)
Definition functions_upper : Topic.t :=
  Topic.mk "FUNCTIONS" (Some "Subroutines") None [].

(** A topic that is not in [Scenario.cs101]. *)
Definition recursion : Topic.t :=
  Topic.mk "Recursion" (Some "Functions that call themselves") (Some 5%Z)
    ["Base case"].

End Cases.

(** ** Values of outcomes *)

Module Derived.



End Derived.

(** ** Arithmetic of the builtins *)

Section Arithmetic.

Local Open Scope Q_scope.

Lemma less_spec (a b : Q) : Py.less a b = true ↔ a < b.
Proof.
  unfold Py.less. rewrite Qlt_alt.
  destruct (a ?= b); split; intros H; congruence.
Qed.

Lemma truediv_nonzero (a b : Q) :
  ¬ b == 0 → Py.truediv a b = Return (a / b).
Proof.
  intros Hb. unfold Py.truediv.
  destruct (Qeq_bool b 0) eqn:E; [|reflexivity].
  apply Qeq_bool_iff in E. contradiction.
Qed.

Lemma truediv_zero (a b : Q) :
  b == 0 → Py.truediv a b = Raise ZeroDivisionError.
Proof.
  intros Hb. unfold Py.truediv.
  apply Qeq_bool_iff in Hb. rewrite Hb. reflexivity.
Qed.

Lemma fold_left_total (l : list Q) (acc : Q) :
  fold_left Qplus l acc == acc + Spec.total l.
Proof.
  revert acc. induction l as [|x l IH]; intros acc; simpl.
  - ring.
  - rewrite IH. ring.
Qed.

(** A generator whose elements all return sums to the left fold. *)
Lemma sum_from_Forall2 (g : list (outcome Q)) (vs : list Q) (acc : Q) :
  Forall2 (fun c v => c = Return v) g vs →
  Py.sum_from acc g = Return (fold_left Qplus vs acc).
Proof.
  intros H. revert acc.
  induction H as [|c v g vs Hc _ IH]; intros acc; simpl.
  - reflexivity.
  - subst c. simpl. apply IH.
Qed.

Lemma sum_returns (g : list (outcome Q)) (vs : list Q) :
  Forall2 (fun c v => c = Return v) g vs →
  ∃ x, Py.sum g = Return x ∧ x == Spec.total vs.
Proof.
  intros H. exists (fold_left Qplus vs 0). split.
  - apply sum_from_Forall2, H.
  - rewrite fold_left_total. ring.
Qed.

Lemma sum_of_values (l : list Q) :
  ∃ x, Py.sum (map Return l) = Return x ∧ x == Spec.total l.
Proof.
  apply sum_returns. induction l; constructor; auto.
Qed.

Lemma len_nonzero {A} (l : list A) : l ≠ [] → ¬ Py.len l == 0.
Proof.
  intros Hl. destruct l as [|x l]; [contradiction|].
  unfold Py.len, Qeq. simpl. lia.
Qed.

End Arithmetic.


(** ** Entity helpers: scores and percentages *)

Section Scores.

Local Open Scope Q_scope.

Lemma get_score_percentage_zero (r : StudentResponse.t) (q : Question.t) :
  Question.points q == 0 →
  StudentResponse.get_score_percentage r q = Return 0.
Proof.
  intros H. unfold StudentResponse.get_score_percentage.
  apply Qeq_bool_iff in H. rewrite H. reflexivity.
Qed.

Lemma get_score_percentage_nonzero (r : StudentResponse.t) (q : Question.t) :
  ¬ Question.points q == 0 →
  StudentResponse.get_score_percentage r q
  = Return (StudentResponse.points_earned r / Question.points q * 100).
Proof.
  intros H. unfold StudentResponse.get_score_percentage.
  destruct (Qeq_bool (Question.points q) 0) eqn:E.
  - apply Qeq_bool_iff in E. contradiction.
  - rewrite truediv_nonzero by assumption. reflexivity.
Qed.

Lemma get_score_percentage_succeeds (r : StudentResponse.t) (q : Question.t) :
  succeeds (StudentResponse.get_score_percentage r q).
Proof.
  destruct (Qeq_dec (Question.points q) 0) as [H|H].
  - rewrite get_score_percentage_zero by assumption. exact I.
  - rewrite get_score_percentage_nonzero by assumption. exact I.
Qed.

Lemma ratio_above_one (a b : Q) : 0 < b → b < a → 100 < a / b * 100.
Proof.
  intros Hb Hab.
  assert (H1 : 1 < a / b).
  { apply Qlt_shift_div_l; [assumption|]. rewrite Qmult_1_l. assumption. }
  apply Qle_lt_trans with (1 * 100).
  - rewrite Qmult_1_l. apply Qle_refl.
  - apply Qmult_lt_compat_r; [reflexivity | assumption].
Qed.

(** C3. [get_score_percentage] returns 0 when the question is worth 0
    points, whatever was earned; otherwise it returns
    [points_earned / points * 100]; and the result is not clamped: a
    response that earned more than the question is worth scores above
    100. *)
Theorem get_score_percentage_spec (r : StudentResponse.t) (q : Question.t) :
  (Question.points q == 0 →
     StudentResponse.get_score_percentage r q = Return 0)
  ∧ (¬ Question.points q == 0 →
     StudentResponse.get_score_percentage r q
     = Return (StudentResponse.points_earned r / Question.points q * 100))
  ∧ (0 < Question.points q →
     Question.points q < StudentResponse.points_earned r →
     ∃ v, StudentResponse.get_score_percentage r q = Return v ∧ 100 < v).
Proof.
  split; [apply get_score_percentage_zero|].
  split; [apply get_score_percentage_nonzero|].
  intros Hpos Hover.
  exists (StudentResponse.points_earned r / Question.points q * 100). split.
  - apply get_score_percentage_nonzero.
    intros E. rewrite E in Hpos. revert Hpos. apply Qlt_irrefl.
  - apply ratio_above_one; assumption.
Qed.

Lemma get_score_percentage_spec_witness :
  StudentResponse.get_score_percentage Scenario.bonus_response Scenario.recursion_q
  = Return (12 / 10 * 100)
  ∧ ∃ v, StudentResponse.get_score_percentage
           Scenario.bonus_response Scenario.recursion_q = Return v
         ∧ 100 < v.
Proof.
  pose proof (get_score_percentage_spec Scenario.bonus_response Scenario.recursion_q)
    as (_ & Hnz & Hover).
  split.
  - apply Hnz. intros E. discriminate E.
  - apply Hover; reflexivity.
Defined.

Lemma get_total_score_returns (s : Student.t) (questions : list Question.t) :
  ∃ x, Student.get_total_score s questions = Return x
       ∧ x == Spec.studentTotalScore s.
Proof.
  unfold Student.get_total_score, Spec.studentTotalScore.
  rewrite <- (map_map StudentResponse.points_earned Return).
  apply sum_of_values.
Qed.

Lemma get_total_possible_returns (s : Student.t) (questions : list Question.t) :
  ∃ x, Student.get_total_possible s questions = Return x
       ∧ x == Spec.studentTotalPossible questions.
Proof.
  unfold Student.get_total_possible, Spec.studentTotalPossible.
  rewrite <- (map_map Question.points Return).
  apply sum_of_values.
Qed.

Lemma get_percentage_zero (s : Student.t) (questions : list Question.t) :
  Spec.studentTotalPossible questions == 0 →
  Student.get_percentage s questions = Return 0.
Proof.
  intros H. unfold Student.get_percentage.
  destruct (get_total_possible_returns s questions) as (tp & -> & Htp).
  simpl. rewrite <- Htp in H. apply Qeq_bool_iff in H. rewrite H. reflexivity.
Qed.

Lemma get_percentage_nonzero (s : Student.t) (questions : list Question.t) :
  ¬ Spec.studentTotalPossible questions == 0 →
  returns_num (Student.get_percentage s questions)
    (Spec.studentTotalScore s / Spec.studentTotalPossible questions * 100).
Proof.
  intros H. unfold Student.get_percentage.
  destruct (get_total_possible_returns s questions) as (tp & -> & Htp).
  destruct (get_total_score_returns s questions) as (ts & -> & Hts).
  simpl. rewrite <- Htp in H.
  destruct (Qeq_bool tp 0) eqn:E.
  - apply Qeq_bool_iff in E. contradiction.
  - simpl. rewrite truediv_nonzero by assumption. simpl.
    rewrite Hts, Htp. reflexivity.
Qed.

Lemma get_percentage_succeeds (s : Student.t) (questions : list Question.t) :
  ∃ p, Student.get_percentage s questions = Return p.
Proof.
  destruct (Qeq_dec (Spec.studentTotalPossible questions) 0) as [H|H].
  - exists 0. apply get_percentage_zero, H.
  - pose proof (get_percentage_nonzero s questions H) as Hr.
    destruct (Student.get_percentage s questions) as [p|e]; [|destruct Hr].
    exists p. reflexivity.
Qed.

(** C2. [get_total_score] returns the sum of [points_earned] over all the
    student's responses, whatever the question list is;
    [get_total_possible] returns the sum of [points] over the question
    list; [get_percentage] returns 0 when that total is zero and
    [total score / total possible * 100] otherwise. *)
Theorem student_totals_spec (s : Student.t) (questions : list Question.t) :
  returns_num (Student.get_total_score s questions) (Spec.studentTotalScore s)
  ∧ (∀ questions',
       Student.get_total_score s questions' = Student.get_total_score s questions)
  ∧ returns_num (Student.get_total_possible s questions)
      (Spec.studentTotalPossible questions)
  ∧ (Spec.studentTotalPossible questions == 0 →
     Student.get_percentage s questions = Return 0)
  ∧ (¬ Spec.studentTotalPossible questions == 0 →
     returns_num (Student.get_percentage s questions)
       (Spec.studentTotalScore s / Spec.studentTotalPossible questions * 100)).
Proof.
  repeat split.
  - destruct (get_total_score_returns s questions) as (x & -> & Hx). exact Hx.
  - destruct (get_total_possible_returns s questions) as (x & -> & Hx). exact Hx.
  - apply get_percentage_zero.
  - apply get_percentage_nonzero.
Qed.

Lemma student_totals_spec_witness :
  returns_num
    (Student.get_percentage Scenario.S1 [Scenario.recursion_q; Scenario.arrays_q])
    ((4 + (9 + 0)) / (10 + (10 + 0)) * 100)
  ∧ Student.get_percentage Scenario.S1 [] = Return 0.
Proof.
  split.
  - apply (student_totals_spec Scenario.S1 [Scenario.recursion_q; Scenario.arrays_q]).
    intros E. discriminate E.
  - apply (student_totals_spec Scenario.S1 []). reflexivity.
Defined.

(** The example of the specification: S1 scores 65%. *)
Example S1_percentage :
  returns_num
    (Student.get_percentage Scenario.S1 [Scenario.recursion_q; Scenario.arrays_q]) 65.
Proof. reflexivity. Qed.

End Scores.

(** ** The Quiz aggregate: class and section averages *)

Section Averages.

Local Open Scope Q_scope.

(** Every student of a list has a percentage. *)
Lemma percentages_exist (ss : list Student.t) (questions : list Question.t) :
  ∃ ps, Forall2 (fun s p => Student.get_percentage s questions = Return p) ss ps.
Proof.
  induction ss as [|s ss [ps IH]].
  - exists []. constructor.
  - destruct (get_percentage_succeeds s questions) as [p Hp].
    exists (p :: ps). constructor; assumption.
Qed.

Lemma percentages_unique (ss : list Student.t) (questions : list Question.t)
    (ps ps' : list Q) :
  Forall2 (fun s p => Student.get_percentage s questions = Return p) ss ps →
  Forall2 (fun s p => Student.get_percentage s questions = Return p) ss ps' →
  ps = ps'.
Proof.
  intros H. revert ps'. induction H as [|s p ss ps Hp _ IH]; intros ps' H'.
  - inversion H'. reflexivity.
  - inversion H' as [|s' p' ss' ps'' Hp' Hrest]; subst.
    f_equal; [congruence | apply IH, Hrest].
Qed.

(** The statements shared by [get_class_average] and [get_section_average]:
    the mean of the percentages of a non-empty list of students. *)
Lemma mean_of_percentages (ss : list Student.t) (questions : list Question.t)
    (ps : list Q) :
  ss ≠ [] →
  Forall2 (fun s p => Student.get_percentage s questions = Return p) ss ps →
  ∃ total,
    Py.sum (map (fun s => Student.get_percentage s questions) ss) = Return total
    ∧ Py.truediv total (Py.len ss) = Return (total / Py.len ss)
    ∧ total / Py.len ss == Spec.mean ps.
Proof.
  intros Hne Hps.
  assert (Hg : Forall2 (fun c v => c = Return v)
                 (map (fun s => Student.get_percentage s questions) ss) ps).
  { clear Hne. induction Hps; simpl; constructor; assumption. }
  destruct (sum_returns _ _ Hg) as (total & Hsum & Htotal).
  exists total. split; [exact Hsum|]. split.
  - apply truediv_nonzero, len_nonzero, Hne.
  - unfold Spec.mean, Py.len.
    rewrite <- (Forall2_length _ _ _ Hps), Htotal. reflexivity.
Qed.

Lemma get_class_average_empty (quiz : Quiz.t) :
  Quiz.students quiz = [] → eval Quiz.get_class_average quiz = Return 0.
Proof.
  intros H. unfold eval, Quiz.get_class_average, attr, mbind, method_bind.
  rewrite H. reflexivity.
Qed.

Lemma get_class_average_mean (quiz : Quiz.t) (ps : list Q) :
  Quiz.students quiz ≠ [] →
  Forall2 (fun s p => Student.get_percentage s (Quiz.questions quiz) = Return p)
    (Quiz.students quiz) ps →
  returns_num (eval Quiz.get_class_average quiz) (Spec.mean ps).
Proof.
  intros Hne Hps.
  destruct (mean_of_percentages _ _ _ Hne Hps) as (total & Hsum & Hdiv & Hmean).
  unfold eval, Quiz.get_class_average, attr, expr, mbind, method_bind.
  destruct (Quiz.students quiz) as [|s ss] eqn:E; [contradiction|].
  cbn [Py.truthy_list negb fst snd]. rewrite Hsum, Hdiv. exact Hmean.
Qed.

(** C4. [get_class_average] returns 0 for a quiz without students, and
    otherwise the arithmetic mean of [get_percentage] over all its
    students; in particular 75 for two students at 100% and 50%. *)
Theorem get_class_average_spec (quiz : Quiz.t) :
  (Quiz.students quiz = [] → eval Quiz.get_class_average quiz = Return 0)
  ∧ (Quiz.students quiz ≠ [] →
     ∃ ps,
       Forall2 (fun s p => Student.get_percentage s (Quiz.questions quiz) = Return p)
         (Quiz.students quiz) ps
       ∧ returns_num (eval Quiz.get_class_average quiz) (Spec.mean ps))
  ∧ (∀ s1 s2,
       Quiz.students quiz = [s1; s2] →
       returns_num (Student.get_percentage s1 (Quiz.questions quiz)) 100 →
       returns_num (Student.get_percentage s2 (Quiz.questions quiz)) 50 →
       returns_num (eval Quiz.get_class_average quiz) 75).
Proof.
  split; [apply get_class_average_empty|]. split.
  - intros Hne.
    destruct (percentages_exist (Quiz.students quiz) (Quiz.questions quiz))
      as [ps Hps].
    exists ps. split; [exact Hps | apply get_class_average_mean; assumption].
  - intros s1 s2 Hss H1 H2.
    destruct (Student.get_percentage s1 (Quiz.questions quiz)) as [p1|] eqn:E1;
      [|destruct H1].
    destruct (Student.get_percentage s2 (Quiz.questions quiz)) as [p2|] eqn:E2;
      [|destruct H2].
    cbn [returns_num] in H1, H2.
    assert (Hps : Forall2
              (fun s p => Student.get_percentage s (Quiz.questions quiz) = Return p)
              (Quiz.students quiz) [p1; p2]).
    { rewrite Hss. repeat constructor; assumption. }
    assert (Hne : Quiz.students quiz ≠ []) by (rewrite Hss; discriminate).
    pose proof (get_class_average_mean quiz _ Hne Hps) as Hr.
    destruct (eval Quiz.get_class_average quiz) as [x|e]; [|exact Hr].
    cbn [returns_num] in *. rewrite Hr.
    unfold Spec.mean, Spec.total, Py.len. cbn [fold_right length].
    rewrite H1, H2. reflexivity.
Qed.

Lemma get_class_average_spec_witness :
  returns_num (eval Quiz.get_class_average Scenario.two_sections) 75
  ∧ eval Quiz.get_class_average (Quiz.init "Quiz 0" "CS 101" None 0) = Return 0.
Proof.
  split.
  - apply (get_class_average_spec Scenario.two_sections)
      with (s1 := Scenario.full_marks) (s2 := Scenario.half_marks);
      reflexivity.
  - apply (get_class_average_spec (Quiz.init "Quiz 0" "CS 101" None 0)).
    reflexivity.
Defined.

(** The comprehension of [get_students_by_section] keeps the students whose
    section is the given string, character for character. *)
Lemma section_filter (section : string) (ss : list Student.t) :
  List.filter (fun s => String.eqb (Student.section s) section) ss
  = filter (fun s => Student.section s = section) ss.
Proof.
  induction ss as [|s ss IH]; [reflexivity|].
  simpl. rewrite filter_cons, IH.
  destruct (String.eqb_spec (Student.section s) section) as [E|E];
    destruct (decide (Student.section s = section)); congruence.
Qed.

Lemma get_students_by_section_eval (quiz : Quiz.t) (section : string) :
  eval (Quiz.get_students_by_section section) quiz
  = Return (filter (fun s => Student.section s = section) (Quiz.students quiz)).
Proof.
  unfold eval, Quiz.get_students_by_section, attr, mbind, method_bind, mret,
    method_ret.
  simpl. rewrite section_filter. reflexivity.
Qed.

(** The section average is the class average of the quiz cut down to the
    section. *)
Lemma get_section_average_restrict (quiz : Quiz.t) (section : string) :
  eval (Quiz.get_section_average section) quiz
  = eval Quiz.get_class_average
      (Quiz.set_students
         (filter (fun s => Student.section s = section) (Quiz.students quiz)) quiz).
Proof.
  unfold eval, Quiz.get_section_average, Quiz.get_class_average,
    Quiz.get_students_by_section, attr, expr, mbind, method_bind, mret,
    method_ret.
  simpl. rewrite section_filter.
  destruct (filter _ (Quiz.students quiz)) as [|s ss]; [reflexivity|].
  cbn [Py.truthy_list negb fst snd].
  destruct (Py.sum _); reflexivity.
Qed.

Lemma get_section_average_none (quiz : Quiz.t) (section : string) :
  (∀ s, s ∈ Quiz.students quiz → Student.section s ≠ section) →
  eval (Quiz.get_section_average section) quiz = Return 0.
Proof.
  intros Hnone. rewrite get_section_average_restrict.
  apply get_class_average_empty. simpl.
  apply elem_of_nil_inv. intros s Hs.
  apply list_elem_of_filter in Hs as [Hsec Hin].
  exact (Hnone s Hin Hsec).
Qed.

(** C5. [get_section_average X] is the class average restricted to
    [get_students_by_section X], which holds exactly the students whose
    section is the string X; it is the mean of their percentages, and 0
    when no student has section X. *)
Theorem get_section_average_spec (quiz : Quiz.t) (X : string) :
  ∃ members,
    eval (Quiz.get_students_by_section X) quiz = Return members
    ∧ members = filter (fun s => Student.section s = X) (Quiz.students quiz)
    ∧ eval (Quiz.get_section_average X) quiz
      = eval Quiz.get_class_average (Quiz.set_students members quiz)
    ∧ ((∀ s, s ∈ Quiz.students quiz → Student.section s ≠ X) →
       eval (Quiz.get_section_average X) quiz = Return 0)
    ∧ (members ≠ [] →
       ∃ ps,
         Forall2 (fun s p => Student.get_percentage s (Quiz.questions quiz) = Return p)
           members ps
         ∧ returns_num (eval (Quiz.get_section_average X) quiz) (Spec.mean ps)).
Proof.
  exists (filter (fun s => Student.section s = X) (Quiz.students quiz)).
  split; [apply get_students_by_section_eval|].
  split; [reflexivity|].
  split; [apply get_section_average_restrict|].
  split; [apply get_section_average_none|].
  rewrite get_section_average_restrict.
  intros Hne.
  destruct (percentages_exist
              (filter (fun s => Student.section s = X) (Quiz.students quiz))
              (Quiz.questions quiz)) as [ps Hps].
  exists ps. split; [exact Hps|].
  apply get_class_average_mean; assumption.
Qed.

Lemma get_section_average_spec_witness :
  returns_num (eval (Quiz.get_section_average "A") Scenario.two_sections) 100
  ∧ returns_num (eval (Quiz.get_section_average "B") Scenario.two_sections) 50
  ∧ eval (Quiz.get_section_average "a") Scenario.two_sections = Return 0.
Proof.
  split; [|split].
  - destruct (get_section_average_spec Scenario.two_sections "A")
      as (members & _ & -> & -> & _).
    reflexivity.
  - destruct (get_section_average_spec Scenario.two_sections "B")
      as (members & _ & -> & -> & _).
    reflexivity.
  - destruct (get_section_average_spec Scenario.two_sections "a")
      as (members & _ & _ & _ & Hnone & _).
    apply Hnone. intros s Hs.
    repeat (apply elem_of_cons in Hs as [->|Hs]; [discriminate|]).
    apply elem_of_nil in Hs. destruct Hs.
Defined.

End Averages.

(** ** Strings: [in] and [lower] *)

Section Strings.

Lemma startswith_spec (p s : string) :
  Py.startswith p s = true ↔ ∃ post, s = String.append p post.
Proof.
  revert s. induction p as [|a p IH]; intros s; simpl.
  - split; [intros _; exists s; reflexivity | reflexivity].
  - destruct s as [|b s].
    + split; [discriminate | intros [post H]; discriminate H].
    + rewrite andb_true_iff, IH, Ascii.eqb_eq. split.
      * intros [-> [post ->]]. exists post. reflexivity.
      * intros [post H]. injection H as -> ->. split; [reflexivity | eauto].
Qed.

Lemma contains_spec (k s : string) :
  Py.contains k s = true ↔ Spec.substring k s.
Proof.
  unfold Spec.substring. induction s as [|b s IH].
  - simpl. rewrite orb_false_r, startswith_spec. split.
    + intros [post H]. exists "", post. exact H.
    + intros ([|c pre] & post & H); [eauto | discriminate H].
  - cbn [Py.contains]. rewrite orb_true_iff, startswith_spec, IH. split.
    + intros [[post H] | (pre & post & H)].
      * exists "", post. exact H.
      * exists (String b pre), post. simpl. rewrite H. reflexivity.
    + intros ([|c pre] & post & H).
      * left. exists post. exact H.
      * right. simpl in H. injection H as _ H. eauto.
Qed.

(** The empty string occurs in every string, and only the empty string
    occurs in the empty string. *)
Lemma contains_empty (s : string) : Py.contains "" s = true.
Proof. destruct s; reflexivity. Qed.

Lemma contains_in_empty (k : string) : Py.contains k "" = true → k = "".
Proof. destruct k; [reflexivity | discriminate]. Qed.

Lemma any_spec (g : list bool) : Py.any g = true ↔ true ∈ g.
Proof.
  unfold Py.any. rewrite existsb_exists. split.
  - intros (b & Hin & ->). apply list_elem_of_In, Hin.
  - intros Hin. exists true. split; [apply list_elem_of_In, Hin | reflexivity].
Qed.

End Strings.

(** ** Topics and the Syllabus aggregate *)

Section Topics.

Lemma contains_keyword_iff (t : Topic.t) (keyword : string) :
  Topic.contains_keyword t keyword = true ↔ Spec.containsKeyword t keyword.
Proof.
  unfold Topic.contains_keyword, Spec.containsKeyword.
  set (kw := Py.lower keyword).
  destruct (Py.contains kw (Py.lower (Topic.name t))) eqn:Hname.
  { split; [intros _; left; apply contains_spec, Hname | reflexivity]. }
  assert (Hn : ¬ Spec.substring kw (Py.lower (Topic.name t))).
  { rewrite <- contains_spec, Hname. discriminate. }
  assert (Hsub : Py.any (map (fun sub => Py.contains kw (Py.lower sub))
                           (Topic.subtopics t)) = true
                 ↔ ∃ sub, sub ∈ Topic.subtopics t
                          ∧ Spec.substring kw (Py.lower sub)).
  { rewrite any_spec, list_elem_of_fmap. split.
    - intros (sub & Hc & Hin). exists sub. split; [exact Hin|].
      apply contains_spec. symmetry. exact Hc.
    - intros (sub & Hin & Hc). exists sub. split; [|exact Hin].
      symmetry. apply contains_spec, Hc. }
  destruct (Topic.description t) as [d|].
  - destruct (Py.truthy_str d && Py.contains kw (Py.lower d)) eqn:Hd.
    + apply andb_true_iff in Hd as [_ Hd].
      split; [intros _; right; left; exists d; split;
                [reflexivity | apply contains_spec, Hd] | reflexivity].
    + rewrite Hsub. split; [intros H; right; right; exact H|].
      intros [H | [(d' & [= <-] & H) | H]]; [contradiction | | exact H].
      exfalso. apply contains_spec in H.
      apply andb_false_iff in Hd as [Hd | Hd]; [|congruence].
      destruct d; [|discriminate Hd]. simpl in H.
      apply contains_in_empty in H.
      apply Hn. rewrite H. apply contains_spec, contains_empty.
  - rewrite Hsub. split; [intros H; right; right; exact H|].
    intros [H | [(d' & [=] & _) | H]]; [contradiction | exact H].
Qed.

Lemma keyword_filter (keyword : string) (ts : list Topic.t) :
  List.filter (fun t => Topic.contains_keyword t keyword) ts
  = filter (fun t => Topic.contains_keyword t keyword = true) ts.
Proof.
  induction ts as [|t ts IH]; [reflexivity|].
  simpl. rewrite filter_cons, IH.
  destruct (Topic.contains_keyword t keyword);
    destruct (decide (_ = true)); congruence.
Qed.

Lemma search_topics_eval (syl : Syllabus.t) (keyword : string) :
  eval (Syllabus.search_topics keyword) syl
  = Return (filter (fun t => Topic.contains_keyword t keyword = true)
              (Syllabus.topics syl)).
Proof.
  unfold eval, Syllabus.search_topics, attr, mbind, method_bind, mret, method_ret.
  simpl. rewrite keyword_filter. reflexivity.
Qed.

(** C7. [contains_keyword] holds exactly when the lowered keyword is a
    substring of the lowered name, of the lowered description when there is
    one, or of some lowered subtopic; [search_topics] returns the topics
    that satisfy it, in the order of the syllabus and as often as they
    occur there; a topic with the subtopic "For Loops" matches "loop". *)
Theorem contains_keyword_spec (syl : Syllabus.t) (keyword : string) :
  (∀ t, Topic.contains_keyword t keyword = true ↔ Spec.containsKeyword t keyword)
  ∧ (∃ found,
       eval (Syllabus.search_topics keyword) syl = Return found
       ∧ found = filter (fun t => Topic.contains_keyword t keyword = true)
                   (Syllabus.topics syl)
       ∧ sublist found (Syllabus.topics syl)
       ∧ (∀ t, t ∈ found ↔ t ∈ Syllabus.topics syl ∧ Spec.containsKeyword t keyword)
       ∧ ((∀ t, t ∈ Syllabus.topics syl → Spec.containsKeyword t keyword) →
          found = Syllabus.topics syl))
  ∧ (∀ t, "For Loops" ∈ Topic.subtopics t → Topic.contains_keyword t "loop" = true).
Proof.
  split; [intros t; apply contains_keyword_iff|]. split.
  - eexists. split; [apply search_topics_eval|]. split; [reflexivity|].
    split; [apply sublist_filter|]. split.
    + intros t. rewrite list_elem_of_filter, contains_keyword_iff. tauto.
    + intros Hall. induction (Syllabus.topics syl) as [|t ts IH]; [reflexivity|].
      rewrite filter_cons_True.
      * f_equal. apply IH. intros t' Ht'. apply Hall. right. exact Ht'.
      * apply contains_keyword_iff, Hall. left.
  - intros t Hin. apply contains_keyword_iff. right. right.
    exists "For Loops". split; [exact Hin|].
    exists "for ", "s". reflexivity.
Qed.

Lemma contains_keyword_spec_witness :
  Topic.contains_keyword Scenario.iteration "loop" = true
  ∧ Py.contains "loop" (Py.lower (Topic.name Scenario.iteration)) = false
  ∧ eval (Syllabus.search_topics "loop") Scenario.cs101
    = Return [Scenario.iteration; Scenario.iteration].
Proof.
  split; [|split].
  - apply (contains_keyword_spec Scenario.cs101 "loop").
    right. left.
  - reflexivity.
  - destruct (contains_keyword_spec Scenario.cs101 "loop")
      as (_ & (found & -> & -> & _) & _).
    reflexivity.
Defined.

(** C10. The empty keyword is contained in every topic, so searching for
    it returns the whole topic list, in order. *)
Theorem empty_keyword_matches_all :
  (∀ t, Topic.contains_keyword t "" = true)
  ∧ (∀ syl, eval (Syllabus.search_topics "") syl = Return (Syllabus.topics syl)).
Proof.
  assert (Hall : ∀ t, Topic.contains_keyword t "" = true).
  { intros t. unfold Topic.contains_keyword. simpl.
    rewrite contains_empty. reflexivity. }
  split; [exact Hall|].
  intros syl. rewrite search_topics_eval. f_equal.
  induction (Syllabus.topics syl) as [|t ts IH]; [reflexivity|].
  rewrite filter_cons_True by apply Hall. f_equal. exact IH.
Qed.

End Topics.

(** ** Lookups *)

Section Lookups.

Context {A : Type}.
Implicit Types (cond : A → bool) (l : list A).

Lemma next_or_none_None cond l :
  Py.next_or_none cond l = None ↔ ∀ y, y ∈ l → cond y = false.
Proof.
  unfold Py.next_or_none. induction l as [|x l IH]; simpl.
  - split; [intros _ y Hy; inversion Hy | reflexivity].
  - destruct (cond x) eqn:E.
    + split; [discriminate|]. intros H.
      rewrite H in E by left. discriminate E.
    + rewrite IH. split.
      * intros H y Hy. apply elem_of_cons in Hy as [->|Hy]; auto.
      * intros H y Hy. apply H. right. exact Hy.
Qed.

Lemma next_or_none_Some cond l (x : A) :
  Py.next_or_none cond l = Some x
  ↔ ∃ pre post, l = pre ++ x :: post ∧ cond x = true
                ∧ ∀ y, y ∈ pre → cond y = false.
Proof.
  unfold Py.next_or_none. induction l as [|z l IH]; simpl.
  - split; [discriminate|]. intros ([|? ?] & post & H & _); discriminate H.
  - destruct (cond z) eqn:E.
    + split.
      * intros [= ->]. exists [], l. repeat split; [exact E|].
        intros y Hy. inversion Hy.
      * intros ([|z' pre] & post & H & Hx & Hpre); simpl in H.
        -- injection H as -> _. reflexivity.
        -- injection H as <- _. rewrite Hpre in E by left. discriminate E.
    + rewrite IH. split.
      * intros (pre & post & -> & Hx & Hpre). exists (z :: pre), post.
        repeat split; [exact Hx|].
        intros y Hy. apply elem_of_cons in Hy as [->|Hy]; auto.
      * intros ([|z' pre] & post & H & Hx & Hpre); simpl in H.
        -- injection H as -> _. congruence.
        -- injection H as <- ->. exists pre, post. repeat split; [exact Hx|].
           intros y Hy. apply Hpre. right. exact Hy.
Qed.

End Lookups.

Section TopicByName.

Lemma get_topic_by_name_eval (syl : Syllabus.t) (name : string) :
  eval (Syllabus.get_topic_by_name name) syl
  = Return (Py.next_or_none
              (fun t => String.eqb (Py.lower (Topic.name t)) (Py.lower name))
              (Syllabus.topics syl)).
Proof. reflexivity. Qed.

Lemma get_topic_by_name_none (syl : Syllabus.t) (name : string) :
  eval (Syllabus.get_topic_by_name name) syl = Return None
  ↔ ∀ t, t ∈ Syllabus.topics syl → Py.lower (Topic.name t) ≠ Py.lower name.
Proof.
  rewrite get_topic_by_name_eval. split.
  - intros [= H] t Ht. apply String.eqb_neq.
    exact (proj1 (next_or_none_None _ _) H t Ht).
  - intros H. f_equal. apply next_or_none_None.
    intros t Ht. apply String.eqb_neq, H, Ht.
Qed.

(** C8. [get_topic_by_name] returns the first topic of the syllabus whose
    lowered name equals the lowered query, and the absent value exactly
    when no topic matches in that way; a topic named "Functions" makes the
    query "functions" succeed. *)
Theorem get_topic_by_name_spec (syl : Syllabus.t) (name : string) :
  (∀ t, eval (Syllabus.get_topic_by_name name) syl = Return (Some t)
        ↔ ∃ earlier later,
            Syllabus.topics syl = earlier ++ t :: later
            ∧ Py.lower (Topic.name t) = Py.lower name
            ∧ ∀ t', t' ∈ earlier → Py.lower (Topic.name t') ≠ Py.lower name)
  ∧ (eval (Syllabus.get_topic_by_name name) syl = Return None
     ↔ ∀ t, t ∈ Syllabus.topics syl → Py.lower (Topic.name t) ≠ Py.lower name)
  ∧ (∀ t, name = "functions" →
          t ∈ Syllabus.topics syl → Topic.name t = "Functions" →
          ∃ t', eval (Syllabus.get_topic_by_name name) syl = Return (Some t')
                ∧ Py.lower (Topic.name t') = "functions").
Proof.
  split; [|split; [apply get_topic_by_name_none|]].
  - intros t. rewrite get_topic_by_name_eval. split.
    + intros [= H]. apply next_or_none_Some in H
        as (earlier & later & Hsplit & Ht & Hearlier).
      exists earlier, later. split; [exact Hsplit|].
      split; [apply String.eqb_eq, Ht|].
      intros t' Ht'. apply String.eqb_neq, Hearlier, Ht'.
    + intros (earlier & later & Hsplit & Ht & Hearlier). f_equal.
      apply next_or_none_Some. exists earlier, later.
      split; [exact Hsplit|]. split; [apply String.eqb_eq, Ht|].
      intros t' Ht'. apply String.eqb_neq, Hearlier, Ht'.
  - intros t -> Hin Hname. rewrite get_topic_by_name_eval.
    destruct (Py.next_or_none _ (Syllabus.topics syl)) as [t'|] eqn:E.
    + exists t'. split; [reflexivity|].
      apply next_or_none_Some in E as (_ & _ & _ & Ht' & _).
      apply String.eqb_eq in Ht'. exact Ht'.
    + exfalso.
      pose proof (proj1 (next_or_none_None _ _) E t Hin) as Ht.
      cbv beta in Ht. rewrite Hname in Ht. discriminate Ht.
Qed.

Lemma get_topic_by_name_spec_witness :
  eval (Syllabus.get_topic_by_name "functions") Scenario.cs101
  = Return (Some Scenario.functions)
  ∧ eval (Syllabus.get_topic_by_name "Recursion") Scenario.cs101 = Return None.
Proof.
  split.
  - apply (get_topic_by_name_spec Scenario.cs101 "functions").
    exists [Scenario.iteration], [Scenario.iteration].
    split; [reflexivity|]. split; [reflexivity|].
    intros t' Ht'. apply list_elem_of_singleton in Ht' as ->. discriminate.
  - apply (get_topic_by_name_spec Scenario.cs101 "Recursion").
    intros t Ht.
    repeat (apply elem_of_cons in Ht as [->|Ht]; [discriminate|]).
    apply elem_of_nil in Ht. destruct Ht.
Defined.

End TopicByName.

(** ** Weak topics *)

Section WeakTopics.

Local Open Scope Q_scope.

Variables (questions : list Question.t) (threshold : Q).

(** One turn of the loop adds the topic of the response, if that topic is
    not empty and the response scores below the threshold on it. *)
Lemma weak_topics_step_spec (acc : list string) (r : StudentResponse.t) :
  ∃ acc',
    Student.weak_topics_step questions threshold acc r = Return acc'
    ∧ ∀ topic,
        topic ∈ acc'
        ↔ topic ∈ acc
          ∨ (topic ≠ "" ∧ Spec.scores_below questions threshold r topic).
Proof.
  unfold Student.weak_topics_step, Spec.scores_below.
  destruct (Py.next_or_none _ questions) as [q|] eqn:Hq.
  2:{ exists acc. split; [reflexivity|]. intros topic.
      split; [auto | intros [H | (_ & q & [=] & _)]; exact H]. }
  destruct (Question.mapped_topic q) as [name|] eqn:Hname.
  2:{ exists acc. split; [reflexivity|]. intros topic.
      split; [auto | intros [H | (_ & q' & [= <-] & Hsome & _)]; [exact H|]].
      congruence. }
  destruct name as [|c name]; cbn [Py.truthy_str].
  { exists acc. split; [reflexivity|]. intros topic.
    split; [auto | intros [H | (Hne & q' & [= <-] & Hsome & _)]; [exact H|]].
    congruence. }
  pose proof (get_score_percentage_succeeds r q) as Hpct.
  destruct (StudentResponse.get_score_percentage r q) as [pct|e] eqn:Epct;
    [clear Hpct | destruct Hpct].
  cbn [mbind outcome_bind].
  destruct (Py.less pct threshold) eqn:Hless.
  - exists (acc ++ [String c name]). split; [reflexivity|]. intros topic.
    rewrite elem_of_app, list_elem_of_singleton. split.
    + intros [H | ->]; [left; exact H | right].
      split; [discriminate|]. exists q. split; [reflexivity|].
      split; [exact Hname|]. exists pct. split; [exact Epct|].
      apply less_spec, Hless.
    + intros [H | (_ & q' & [= <-] & Hsome & _)]; [left; exact H | right].
      congruence.
  - exists acc. split; [reflexivity|]. intros topic.
    split; [auto | intros [H | (_ & q' & [= <-] & _ & pct' & Hp & Hlt)];
                     [exact H|]].
    rewrite Epct in Hp. injection Hp as <-.
    apply less_spec in Hlt. congruence.
Qed.

Lemma weak_topics_loop_spec (responses : list StudentResponse.t)
    (acc : list string) :
  ∃ acc',
    Student.weak_topics_loop questions threshold acc responses = Return acc'
    ∧ ∀ topic,
        topic ∈ acc'
        ↔ topic ∈ acc
          ∨ (topic ≠ ""
             ∧ ∃ r, r ∈ responses ∧ Spec.scores_below questions threshold r topic).
Proof.
  revert acc. induction responses as [|r rest IH]; intros acc; simpl.
  - exists acc. split; [reflexivity|]. intros topic.
    split; [auto | intros [H | (_ & r & Hr & _)]; [exact H | inversion Hr]].
  - destruct (weak_topics_step_spec acc r) as (acc1 & -> & H1).
    cbn [mbind outcome_bind].
    destruct (IH acc1) as (acc2 & -> & H2).
    exists acc2. split; [reflexivity|]. intros topic.
    rewrite H2, H1. split.
    + intros [[H | [Hne H]] | (Hne & r' & Hr' & H)];
        [left; exact H | right | right]; (split; [exact Hne|]).
      * exists r. split; [left | exact H].
      * exists r'. split; [right; exact Hr' | exact H].
    + intros [H | (Hne & r' & Hr' & H)]; [left; left; exact H |].
      apply elem_of_cons in Hr' as [-> | Hr'].
      * left. right. split; assumption.
      * right. split; [exact Hne|]. exists r'. split; assumption.
Qed.

End WeakTopics.

Lemma list_of_set_spec (l : list string) :
  NoDup (Py.list_of_set l) ∧ ∀ x, x ∈ Py.list_of_set l ↔ x ∈ l.
Proof.
  unfold Py.list_of_set. split; [apply NoDup_elements|].
  intros x. rewrite elem_of_elements, elem_of_list_to_set. reflexivity.
Qed.

(** C1. [get_weak_topics] returns, each exactly once, the
    topic names that are non-empty and are the [mapped_topic] of the
    question some response of the student resolves to by [question_id],
    that response scoring strictly below the threshold; a response that
    resolves to no question contributes nothing. *)
Theorem get_weak_topics_spec (s : Student.t) (questions : list Question.t)
    (threshold : Q) :
  ∃ topics,
    Student.get_weak_topics s questions threshold = Return topics
    ∧ NoDup topics
    ∧ (∀ topic, topic ∈ topics ↔ Spec.weak_topic s questions threshold topic)
    ∧ ((∀ r, r ∈ Student.responses s →
             Py.next_or_none
               (fun q => Z.eqb (Question.question_id q)
                           (StudentResponse.question_id r))
               questions = None) →
       topics = []).
Proof.
  unfold Student.get_weak_topics.
  destruct (weak_topics_loop_spec questions threshold (Student.responses s) [])
    as (acc & -> & Hacc).
  cbn [mbind outcome_bind mret outcome_ret].
  destruct (list_of_set_spec acc) as [Hnodup Hin].
  assert (Hiff : ∀ topic, topic ∈ Py.list_of_set acc
                          ↔ Spec.weak_topic s questions threshold topic).
  { intros topic. rewrite Hin, Hacc. unfold Spec.weak_topic.
    split; [intros [H | H]; [inversion H | exact H] | intros H; right; exact H]. }
  exists (Py.list_of_set acc). split; [reflexivity|]. split; [exact Hnodup|].
  split; [exact Hiff|].
  intros Hdangling. apply elem_of_nil_inv. intros topic Htopic.
  apply Hiff in Htopic as (_ & r & Hr & q & Hq & _).
  rewrite (Hdangling r Hr) in Hq. discriminate Hq.
Qed.

Lemma get_weak_topics_spec_witness :
  Student.get_weak_topics Scenario.S1 [] 70 = Return [].
Proof.
  destruct (get_weak_topics_spec Scenario.S1 [] 70)
    as (topics & -> & _ & _ & Hdangling).
  f_equal. apply Hdangling. intros r Hr. reflexivity.
Defined.

(** C1 does not hold with "has a mapped topic" read as "the topic is
    present": a question mapped to the empty topic name, answered below the
    threshold, qualifies under that reading, yet the result is empty. *)
Lemma get_weak_topics_as_specified_fails :
  ¬ ∃ topics,
      Student.get_weak_topics Scenario.S4 [Scenario.untitled_q] 70 = Return topics
      ∧ NoDup topics
      ∧ ∀ topic, topic ∈ topics
                 ↔ Spec.weak_topic_as_specified Scenario.S4 [Scenario.untitled_q] 70 topic.
Proof.
  intros (topics & Hret & _ & Hiff).
  assert (Hempty : topics = []) by (vm_compute in Hret; congruence).
  subst topics.
  assert (Hin : "" ∈ @nil string); [|inversion Hin].
  apply Hiff. exists (StudentResponse.mk 7 "goto" 0 false).
  split; [left|]. exists Scenario.untitled_q.
  split; [reflexivity|]. split; [reflexivity|].
  eexists. split; reflexivity.
Qed.

(** The example of the specification: S1 is weak in Recursion only. *)
Example S1_weak_topics :
  Student.get_weak_topics Scenario.S1
    [Scenario.recursion_q; Scenario.arrays_q] Student.default_threshold
  = Return ["Recursion"].
Proof. vm_compute. reflexivity. Qed.

(** ** Failure freedom *)

Section NeverRaises.

Local Open Scope Q_scope.

Lemma get_class_average_succeeds (quiz : Quiz.t) :
  succeeds (eval Quiz.get_class_average quiz).
Proof.
  destruct (Quiz.students quiz) as [|s ss] eqn:E.
  - rewrite get_class_average_empty by assumption. exact I.
  - destruct (percentages_exist (Quiz.students quiz) (Quiz.questions quiz))
      as [ps Hps].
    assert (Hne : Quiz.students quiz ≠ []) by (rewrite E; discriminate).
    pose proof (get_class_average_mean quiz ps Hne Hps) as Hr.
    destruct (eval Quiz.get_class_average quiz); [exact I | exact Hr].
Qed.

Lemma get_section_average_succeeds (quiz : Quiz.t) (section : string) :
  succeeds (eval (Quiz.get_section_average section) quiz).
Proof. rewrite get_section_average_restrict. apply get_class_average_succeeds. Qed.

Lemma get_weak_topics_succeeds (s : Student.t) (questions : list Question.t)
    (threshold : Q) :
  succeeds (Student.get_weak_topics s questions threshold).
Proof.
  unfold Student.get_weak_topics.
  destruct (weak_topics_loop_spec questions threshold (Student.responses s) [])
    as (acc & -> & _).
  exact I.
Qed.

Lemma succeeds_of_returns {A} (c : outcome A) :
  (∃ v, c = Return v) → succeeds c.
Proof. intros [v ->]. exact I. Qed.

(** C6. None of the read and aggregate operations raises: each returns a
    value on every input; where a division by zero or an empty collection
    is possible the value is 0; a lookup that finds nothing returns the
    absent value.  ([contains_keyword] is a total boolean function.) *)
Theorem core_never_raises :
  (∀ r q,
     succeeds (StudentResponse.get_score_percentage r q)
     ∧ (Question.points q == 0 →
        StudentResponse.get_score_percentage r q = Return 0))
  ∧ (∀ s questions threshold,
       succeeds (Student.get_total_score s questions)
       ∧ succeeds (Student.get_total_possible s questions)
       ∧ succeeds (Student.get_percentage s questions)
       ∧ (Spec.studentTotalPossible questions == 0 →
          Student.get_percentage s questions = Return 0)
       ∧ succeeds (Student.get_weak_topics s questions threshold))
  ∧ (∀ quiz section,
       succeeds (eval Quiz.get_class_average quiz)
       ∧ (Quiz.students quiz = [] →
          eval Quiz.get_class_average quiz = Return 0)
       ∧ succeeds (eval (Quiz.get_students_by_section section) quiz)
       ∧ succeeds (eval Quiz.get_all_sections quiz)
       ∧ succeeds (eval (Quiz.get_section_average section) quiz)
       ∧ ((∀ s, s ∈ Quiz.students quiz → Student.section s ≠ section) →
          eval (Quiz.get_section_average section) quiz = Return 0))
  ∧ (∀ quiz question_id,
       ∃ found,
         eval (Quiz.get_question_by_id question_id) quiz = Return found
         ∧ ((∀ q, q ∈ Quiz.questions quiz → Question.question_id q ≠ question_id) →
            found = None))
  ∧ (∀ quiz student_id,
       ∃ found,
         eval (Quiz.get_student_by_id student_id) quiz = Return found
         ∧ ((∀ s, s ∈ Quiz.students quiz → Student.student_id s ≠ student_id) →
            found = None))
  ∧ (∀ syl name,
       ∃ found,
         eval (Syllabus.get_topic_by_name name) syl = Return found
         ∧ ((∀ t, t ∈ Syllabus.topics syl →
                  Py.lower (Topic.name t) ≠ Py.lower name) →
            found = None))
  ∧ (∀ syl keyword,
       succeeds (eval (Syllabus.search_topics keyword) syl)
       ∧ succeeds (eval Syllabus.get_all_topic_names syl)).
Proof.
  split.
  { intros r q.
    split; [apply get_score_percentage_succeeds | apply get_score_percentage_zero]. }
  split.
  { intros s questions threshold. repeat split.
    - destruct (get_total_score_returns s questions) as (x & -> & _). exact I.
    - destruct (get_total_possible_returns s questions) as (x & -> & _). exact I.
    - apply succeeds_of_returns, get_percentage_succeeds.
    - apply get_percentage_zero.
    - apply get_weak_topics_succeeds. }
  split.
  { intros quiz section.
    split; [apply get_class_average_succeeds|].
    split; [apply get_class_average_empty|].
    split; [exact I|]. split; [exact I|].
    split; [apply get_section_average_succeeds | apply get_section_average_none]. }
  split.
  { intros quiz question_id. eexists. split; [reflexivity|].
    intros Hnone. apply next_or_none_None. intros q Hq.
    apply Z.eqb_neq, Hnone, Hq. }
  split.
  { intros quiz student_id. eexists. split; [reflexivity|].
    intros Hnone. apply next_or_none_None. intros s Hs.
    apply String.eqb_neq, Hnone, Hs. }
  split.
  { intros syl name. eexists. split; [reflexivity|].
    intros Hnone. apply next_or_none_None. intros t Ht.
    apply String.eqb_neq, Hnone, Ht. }
  intros syl keyword. split; exact I.
Qed.

Lemma core_never_raises_witness :
  StudentResponse.get_score_percentage Scenario.bonus_response
    (Question.mk 9 "Bonus" "" 0 None []) = Return 0
  ∧ Student.get_percentage Scenario.S1 [] = Return 0
  ∧ eval Quiz.get_class_average (Quiz.init "Quiz 0" "CS 101" None 0) = Return 0
  ∧ eval (Quiz.get_section_average "C") Scenario.two_sections = Return 0
  ∧ eval (Quiz.get_question_by_id 5) Scenario.two_sections = Return None
  ∧ eval (Quiz.get_student_by_id "S9") Scenario.two_sections = Return None
  ∧ eval (Syllabus.get_topic_by_name "Recursion") Scenario.cs101 = Return None.
Proof.
  destruct core_never_raises as (Hscore & Hstudent & Hquiz & Hq & Hs & Ht & _).
  split; [apply Hscore; reflexivity|].
  split; [apply (Hstudent Scenario.S1 [] 70); reflexivity|].
  split; [apply (Hquiz _ ""); reflexivity|].
  split.
  { apply (Hquiz Scenario.two_sections "C"). intros s Hin.
    repeat (apply elem_of_cons in Hin as [->|Hin]; [discriminate|]).
    apply elem_of_nil in Hin. destruct Hin. }
  split.
  { destruct (Hq Scenario.two_sections 5%Z) as (found & -> & Hnone).
    f_equal. apply Hnone. intros q Hin.
    repeat (apply elem_of_cons in Hin as [->|Hin]; [discriminate|]).
    apply elem_of_nil in Hin. destruct Hin. }
  split.
  { destruct (Hs Scenario.two_sections "S9") as (found & -> & Hnone).
    f_equal. apply Hnone. intros s Hin.
    repeat (apply elem_of_cons in Hin as [->|Hin]; [discriminate|]).
    apply elem_of_nil in Hin. destruct Hin. }
  destruct (Ht Scenario.cs101 "Recursion") as (found & -> & Hnone).
  f_equal. apply Hnone. intros t Hin.
  repeat (apply elem_of_cons in Hin as [->|Hin]; [discriminate|]).
  apply elem_of_nil in Hin. destruct Hin.
Defined.

End NeverRaises.

(** ** Frame: reads leave the aggregates alone *)

Section Frame.

Context {S : Type}.

Lemma read_only_ret {A} (a : A) : read_only (mret a : method S A).
Proof. intros self. reflexivity. Qed.

Lemma read_only_attr {A} (f : S → A) : read_only (attr f).
Proof. intros self. reflexivity. Qed.

Lemma read_only_expr {A} (c : outcome A) : read_only (expr c : method S A).
Proof. intros self. reflexivity. Qed.

Lemma read_only_bind {A B} (m : method S A) (k : A → method S B) :
  read_only m → (∀ a, read_only (k a)) → read_only (m ≫= k).
Proof.
  intros Hm Hk self. specialize (Hm self).
  unfold exec, mbind, method_bind in *.
  destruct (m self) as [[a|e] self']; simpl in Hm; subst self'.
  - apply Hk.
  - reflexivity.
Qed.

Lemma read_only_if {A} (b : bool) (m1 m2 : method S A) :
  read_only m1 → read_only m2 → read_only (if b then m1 else m2).
Proof. destruct b; auto. Qed.

(** A method that leaves the state alone answers the same when asked
    again. *)
Lemma read_only_pure_read {A} (m : method S A) : read_only m → pure_read m.
Proof.
  intros Hm. split; [exact Hm|].
  intros self. rewrite (Hm self). reflexivity.
Qed.

End Frame.

Ltac frame_reads :=
  repeat first
    [ apply read_only_bind; [|intros ?]
    | apply read_only_if
    | apply read_only_attr
    | apply read_only_expr
    | apply read_only_ret ].
Ltac frame := apply read_only_pure_read; frame_reads.

Section Reads.

(** The two appending methods do change the state: the frame property
    below is a property of the reads, not of every method. *)
Lemma add_question_writes (q : Question.t) : ¬ read_only (Quiz.add_question q).
Proof.
  intros H. specialize (H (Quiz.init "Quiz 0" "CS 101" None 0)).
  apply (f_equal Quiz.questions) in H. discriminate H.
Qed.

Lemma add_topic_writes (t : Topic.t) : ¬ read_only (Syllabus.add_topic t).
Proof.
  intros H. specialize (H (Syllabus.init "Intro to Programming" "CS 101")).
  apply (f_equal Syllabus.topics) in H. discriminate H.
Qed.

Lemma add_question_appends (q : Question.t) (quiz : Quiz.t) :
  Quiz.questions (exec (Quiz.add_question q) quiz) = Quiz.questions quiz ++ [q]
  ∧ Quiz.students (exec (Quiz.add_question q) quiz) = Quiz.students quiz.
Proof. split; reflexivity. Qed.

(** C9. Every read operation of the Quiz and Syllabus aggregates, and
    every Student and StudentResponse helper called on the quiz's
    questions, leaves the aggregate exactly as it was, and a second call
    on that state returns the same value. *)
Theorem read_operations_pure :
  (∀ question_id, pure_read (Quiz.get_question_by_id question_id))
  ∧ (∀ student_id, pure_read (Quiz.get_student_by_id student_id))
  ∧ pure_read Quiz.get_class_average
  ∧ (∀ section, pure_read (Quiz.get_students_by_section section))
  ∧ (∀ section, pure_read (Quiz.get_section_average section))
  ∧ pure_read Quiz.get_all_sections
  ∧ (∀ name, pure_read (Syllabus.get_topic_by_name name))
  ∧ (∀ keyword, pure_read (Syllabus.search_topics keyword))
  ∧ pure_read Syllabus.get_all_topic_names
  ∧ (∀ s threshold,
       pure_read (questions ← attr Quiz.questions;
                  expr (Student.get_total_score s questions))
       ∧ pure_read (questions ← attr Quiz.questions;
                    expr (Student.get_total_possible s questions))
       ∧ pure_read (questions ← attr Quiz.questions;
                    expr (Student.get_percentage s questions))
       ∧ pure_read (questions ← attr Quiz.questions;
                    expr (Student.get_weak_topics s questions threshold)))
  ∧ (∀ r question_id,
       pure_read (question ← Quiz.get_question_by_id question_id;
                  match question with
                  | Some q => expr (q' ← StudentResponse.get_score_percentage r q;
                                    mret (Some q'))
                  | None => mret None
                  end)).
Proof.
  repeat lazymatch goal with
         | |- _ ∧ _ => split
         | |- ∀ _, _ => intros ?
         end.
  all: unfold Quiz.get_class_average, Quiz.get_section_average,
         Quiz.get_students_by_section, Quiz.get_all_sections,
         Quiz.get_question_by_id, Quiz.get_student_by_id,
         Syllabus.get_topic_by_name, Syllabus.search_topics,
         Syllabus.get_all_topic_names.
  all: try (frame; fail).
  apply read_only_pure_read.
  apply read_only_bind; [frame_reads | intros question].
  destruct question as [q|]; frame_reads.
Qed.

End Reads.

(** * Further properties of the aggregates *)

(** ** Lookups by identity *)

Section KeyedLookup.

Context {A K : Type} (key : A → K) (eqb : K → K → bool).
Hypothesis eqb_eq : ∀ a b, eqb a b = true ↔ a = b.

Lemma next_or_none_app (cond : A → bool) (l1 l2 : list A) :
  Py.next_or_none cond (l1 ++ l2)
  = match Py.next_or_none cond l1 with
    | Some x => Some x
    | None => Py.next_or_none cond l2
    end.
Proof.
  unfold Py.next_or_none. induction l1 as [|x l1 IH]; simpl; [reflexivity|].
  destruct (cond x); [reflexivity | exact IH].
Qed.

(** A hit is an element that carries the key. *)
Lemma next_or_none_key_sound (k : K) (l : list A) (x : A) :
  Py.next_or_none (fun y => eqb (key y) k) l = Some x → x ∈ l ∧ key x = k.
Proof.
  intros H. apply next_or_none_Some in H as (pre & post & -> & Hx & _).
  split; [|apply eqb_eq, Hx].
  apply elem_of_app. right. left.
Qed.

(** With pairwise distinct keys, looking up the key of an element gives
    that element. *)
Lemma next_or_none_key_unique (l : list A) (x : A) :
  NoDup (map key l) → x ∈ l →
  Py.next_or_none (fun y => eqb (key y) (key x)) l = Some x.
Proof.
  intros Hnd Hx. apply list_elem_of_split in Hx as (pre & post & ->).
  apply next_or_none_Some. exists pre, post.
  split; [reflexivity|]. split; [apply eqb_eq; reflexivity|].
  intros y Hy. destruct (eqb (key y) (key x)) eqn:E; [|reflexivity].
  apply eqb_eq in E. exfalso.
  rewrite map_app in Hnd. apply NoDup_app in Hnd as (_ & Hdisj & _).
  apply (Hdisj (key y)).
  - apply list_elem_of_fmap. exists y. split; [reflexivity | exact Hy].
  - simpl. rewrite E. left.
Qed.

(** A key no element carries is not found. *)
Lemma next_or_none_key_fresh (k : K) (l : list A) :
  (∀ y, y ∈ l → key y ≠ k) →
  Py.next_or_none (fun y => eqb (key y) k) l = None.
Proof.
  intros H. apply next_or_none_None. intros y Hy.
  destruct (eqb (key y) k) eqn:E; [|reflexivity].
  apply eqb_eq in E. destruct (H y Hy E).
Qed.


End KeyedLookup.

Section QuizLookups.

Lemma Z_eqb_iff (a b : Z) : Z.eqb a b = true ↔ a = b.
Proof. apply Z.eqb_eq. Qed.

Lemma string_eqb_iff (a b : string) : String.eqb a b = true ↔ a = b.
Proof. apply String.eqb_eq. Qed.

(** X1. [get_question_by_id] only returns a question of the quiz that
    carries the requested id; when the ids of the quiz are pairwise
    distinct, asking for the id of any of its questions returns that very
    question. *)
Theorem get_question_by_id_lookup (quiz : Quiz.t) (question_id : Z)
    (q : Question.t) :
  (eval (Quiz.get_question_by_id question_id) quiz = Return (Some q) →
   q ∈ Quiz.questions quiz ∧ Question.question_id q = question_id)
  ∧ (NoDup (map Question.question_id (Quiz.questions quiz)) →
     q ∈ Quiz.questions quiz →
     eval (Quiz.get_question_by_id (Question.question_id q)) quiz
     = Return (Some q)).
Proof.
  split.
  - intros [= H]. exact (next_or_none_key_sound _ _ Z_eqb_iff _ _ _ H).
  - intros Hnd Hq. unfold eval. simpl. f_equal.
    exact (next_or_none_key_unique _ _ Z_eqb_iff _ _ Hnd Hq).
Qed.

Lemma get_question_by_id_lookup_witness :
  eval (Quiz.get_question_by_id 2) Cases.two_questions
  = Return (Some Scenario.arrays_q).
Proof.
  apply (get_question_by_id_lookup Cases.two_questions 2 Scenario.arrays_q).
  - apply (bool_decide_unpack _). vm_compute. exact I.
  - right. left.
Defined.

(** X2. [get_student_by_id] only returns a student of the quiz that carries
    the requested id; when the student ids are pairwise distinct, asking
    for the id of any student of the quiz returns that very student. *)
Theorem get_student_by_id_lookup (quiz : Quiz.t) (student_id : string)
    (s : Student.t) :
  (eval (Quiz.get_student_by_id student_id) quiz = Return (Some s) →
   s ∈ Quiz.students quiz ∧ Student.student_id s = student_id)
  ∧ (NoDup (map Student.student_id (Quiz.students quiz)) →
     s ∈ Quiz.students quiz →
     eval (Quiz.get_student_by_id (Student.student_id s)) quiz
     = Return (Some s)).
Proof.
  split.
  - intros [= H]. exact (next_or_none_key_sound _ _ string_eqb_iff _ _ _ H).
  - intros Hnd Hs. unfold eval. simpl. f_equal.
    exact (next_or_none_key_unique _ _ string_eqb_iff _ _ Hnd Hs).
Qed.

Lemma get_student_by_id_lookup_witness :
  eval (Quiz.get_student_by_id "S3") Scenario.two_sections
  = Return (Some Scenario.half_marks).
Proof.
  apply (get_student_by_id_lookup Scenario.two_sections "S3" Scenario.half_marks).
  - apply (bool_decide_unpack _). vm_compute. exact I.
  - right. left.
Defined.

End QuizLookups.

(** ** Appending, then looking up *)

Section AppendThenLookup.

Lemma get_question_by_id_eval (quiz : Quiz.t) (question_id : Z) :
  eval (Quiz.get_question_by_id question_id) quiz
  = Return (Py.next_or_none
              (fun q => Z.eqb (Question.question_id q) question_id)
              (Quiz.questions quiz)).
Proof. reflexivity. Qed.

Lemma get_student_by_id_eval (quiz : Quiz.t) (student_id : string) :
  eval (Quiz.get_student_by_id student_id) quiz
  = Return (Py.next_or_none
              (fun s => String.eqb (Student.student_id s) student_id)
              (Quiz.students quiz)).
Proof. reflexivity. Qed.

(** X3. After [add_question q], a lookup that succeeded before still
    returns the same question, so a question added under an id that is
    already taken is never returned; a lookup of another id that failed
    still fails; and [q] is returned for its own id when that id was not
    found before. *)
Theorem add_question_then_lookup (quiz : Quiz.t) (q : Question.t)
    (question_id : Z) :
  (∀ q', eval (Quiz.get_question_by_id question_id) quiz = Return (Some q') →
         eval (Quiz.get_question_by_id question_id)
           (exec (Quiz.add_question q) quiz) = Return (Some q'))
  ∧ (eval (Quiz.get_question_by_id question_id) quiz = Return None →
     question_id ≠ Question.question_id q →
     eval (Quiz.get_question_by_id question_id)
       (exec (Quiz.add_question q) quiz) = Return None)
  ∧ (eval (Quiz.get_question_by_id (Question.question_id q)) quiz = Return None →
     eval (Quiz.get_question_by_id (Question.question_id q))
       (exec (Quiz.add_question q) quiz) = Return (Some q)).
Proof.
  rewrite !get_question_by_id_eval.
  unfold exec, Quiz.add_question, assign. cbn [snd Quiz.set_questions Quiz.questions].
  rewrite !next_or_none_app. split; [|split].
  - intros q' [= ->]. reflexivity.
  - intros [= ->] Hne. unfold Py.next_or_none. simpl.
    destruct (Z.eqb_spec (Question.question_id q) question_id); congruence.
  - intros [= ->]. unfold Py.next_or_none. simpl.
    rewrite Z.eqb_refl. reflexivity.
Qed.

Lemma add_question_then_lookup_witness :
  eval (Quiz.get_question_by_id 1)
    (exec (Quiz.add_question Cases.recursion_again) Cases.two_questions)
  = Return (Some Scenario.recursion_q)
  ∧ eval (Quiz.get_question_by_id 3)
      (exec (Quiz.add_question Cases.ungraded_q) Cases.two_questions)
    = Return (Some Cases.ungraded_q)
  ∧ eval (Quiz.get_question_by_id 4)
      (exec (Quiz.add_question Cases.ungraded_q) Cases.two_questions)
    = Return None.
Proof.
  split; [|split].
  - apply (add_question_then_lookup Cases.two_questions Cases.recursion_again 1).
    reflexivity.
  - apply (add_question_then_lookup Cases.two_questions Cases.ungraded_q 3).
    reflexivity.
  - apply (add_question_then_lookup Cases.two_questions Cases.ungraded_q 4).
    + reflexivity.
    + discriminate.
Defined.

(** X4. After [add_student s], a lookup that succeeded before still returns
    the same student, so a student added under an id that is already taken
    is never returned; a lookup of another id that failed still fails; and
    [s] is returned for its own id when that id was not found before. *)
Theorem add_student_then_lookup (quiz : Quiz.t) (s : Student.t)
    (student_id : string) :
  (∀ s', eval (Quiz.get_student_by_id student_id) quiz = Return (Some s') →
         eval (Quiz.get_student_by_id student_id)
           (exec (Quiz.add_student s) quiz) = Return (Some s'))
  ∧ (eval (Quiz.get_student_by_id student_id) quiz = Return None →
     student_id ≠ Student.student_id s →
     eval (Quiz.get_student_by_id student_id)
       (exec (Quiz.add_student s) quiz) = Return None)
  ∧ (eval (Quiz.get_student_by_id (Student.student_id s)) quiz = Return None →
     eval (Quiz.get_student_by_id (Student.student_id s))
       (exec (Quiz.add_student s) quiz) = Return (Some s)).
Proof.
  rewrite !get_student_by_id_eval.
  unfold exec, Quiz.add_student, assign. cbn [snd Quiz.set_students Quiz.students].
  rewrite !next_or_none_app. split; [|split].
  - intros s' [= ->]. reflexivity.
  - intros [= ->] Hne. unfold Py.next_or_none. simpl.
    destruct (String.eqb_spec (Student.student_id s) student_id); congruence.
  - intros [= ->]. unfold Py.next_or_none. simpl.
    rewrite String.eqb_refl. reflexivity.
Qed.

Lemma add_student_then_lookup_witness :
  eval (Quiz.get_student_by_id "S1")
    (exec (Quiz.add_student Cases.S1_again) Cases.two_questions)
  = Return (Some Scenario.S1)
  ∧ eval (Quiz.get_student_by_id "S5")
      (exec (Quiz.add_student Cases.S5) Cases.two_questions)
    = Return (Some Cases.S5)
  ∧ eval (Quiz.get_student_by_id "S6")
      (exec (Quiz.add_student Cases.S5) Cases.two_questions)
    = Return None.
Proof.
  split; [|split].
  - apply (add_student_then_lookup Cases.two_questions Cases.S1_again "S1").
    reflexivity.
  - apply (add_student_then_lookup Cases.two_questions Cases.S5 "S5").
    reflexivity.
  - apply (add_student_then_lookup Cases.two_questions Cases.S5 "S6").
    + reflexivity.
    + discriminate.
Defined.



End AppendThenLookup.

(** ** Sections and averages *)

Section SumsAndMeans.

Local Open Scope Q_scope.

Lemma total_app (l1 l2 : list Q) :
  Spec.total (l1 ++ l2) == Spec.total l1 + Spec.total l2.
Proof.
  induction l1 as [|x l1 IH]; simpl.
  - ring.
  - rewrite IH. ring.
Qed.










End SumsAndMeans.

Section Grouping.

Context {A K : Type} `{EqDecision K} (key : A → K).

Lemma group_skip (x : A) (f : K → list A) (keys : list K) :
  key x ∉ keys →
  map (fun k => if decide (key x = k) then x :: f k else f k) keys = map f keys.
Proof.
  induction keys as [|k keys IH]; intros Hx; simpl; [reflexivity|].
  apply not_elem_of_cons in Hx as [Hne Hx].
  rewrite IH by assumption.
  destruct (decide (key x = k)); [contradiction | reflexivity].
Qed.

Lemma group_insert (x : A) (f : K → list A) (keys : list K) :
  NoDup keys → key x ∈ keys →
  concat (map (fun k => if decide (key x = k) then x :: f k else f k) keys)
  ≡ₚ x :: concat (map f keys).
Proof.
  induction 1 as [|k keys Hk Hnd IH]; intros Hx; [inversion Hx|].
  simpl. destruct (decide (key x = k)) as [E|E].
  - subst k. rewrite group_skip by assumption. reflexivity.
  - apply elem_of_cons in Hx as [Hx|Hx]; [contradiction|].
    rewrite IH by assumption. symmetry. apply Permutation_middle.
Qed.

(** Grouping a list by distinct keys that cover it loses and repeats
    nothing. *)
Lemma concat_groups (keys : list K) (l : list A) :
  NoDup keys → (∀ x, x ∈ l → key x ∈ keys) →
  concat (map (fun k => filter (fun x => key x = k) l) keys) ≡ₚ l.
Proof.
  intros Hnd. induction l as [|x l IH]; intros Hcover.
  - clear Hnd Hcover. induction keys as [|k keys IHk]; [reflexivity|].
    simpl. exact IHk.
  - rewrite (map_ext _ (fun k => if decide (key x = k)
                                 then x :: filter (fun y => key y = k) l
                                 else filter (fun y => key y = k) l)).
    2:{ intros k. rewrite filter_cons. reflexivity. }
    rewrite group_insert; [|exact Hnd | apply Hcover; left].
    constructor. apply IH. intros y Hy. apply Hcover. right. exact Hy.
Qed.

End Grouping.

Section Sections.

Local Open Scope Q_scope.

Lemma get_all_sections_eval (quiz : Quiz.t) :
  eval Quiz.get_all_sections quiz
  = Return (Py.list_of_set (map Student.section (Quiz.students quiz))).
Proof. reflexivity. Qed.

Lemma section_listed (quiz : Quiz.t) (X : string) :
  X ∈ Py.list_of_set (map Student.section (Quiz.students quiz))
  ↔ ∃ s, s ∈ Quiz.students quiz ∧ Student.section s = X.
Proof.
  rewrite (proj2 (list_of_set_spec _)), list_elem_of_fmap. split.
  - intros (s & -> & Hs). eauto.
  - intros (s & Hs & <-). eauto.
Qed.

(** X6. [get_all_sections] lists every section label that some student
    carries, each once, and nothing else; a label is listed exactly when
    [get_students_by_section] finds a student for it, and a label that is
    not listed has section average 0. *)
Theorem get_all_sections_spec (quiz : Quiz.t) :
  ∃ sections,
    eval Quiz.get_all_sections quiz = Return sections
    ∧ NoDup sections
    ∧ (∀ X, X ∈ sections ↔ ∃ s, s ∈ Quiz.students quiz ∧ Student.section s = X)
    ∧ (∀ X, X ∈ sections
            ↔ ∃ s ss, eval (Quiz.get_students_by_section X) quiz = Return (s :: ss))
    ∧ (∀ X, X ∉ sections →
            eval (Quiz.get_section_average X) quiz = Return 0).
Proof.
  exists (Py.list_of_set (map Student.section (Quiz.students quiz))).
  split; [apply get_all_sections_eval|].
  split; [apply list_of_set_spec|].
  split; [apply section_listed|]. split.
  - intros X. rewrite section_listed, get_students_by_section_eval. split.
    + intros (s & Hs & HX).
      destruct (filter (fun s => Student.section s = X) (Quiz.students quiz))
        as [|s' ss] eqn:E; [|eauto].
      exfalso. apply (filter_nil_not_elem_of _ _ s E HX Hs).
    + intros (s & ss & [= E]). exists s.
      assert (Hs : s ∈ filter (fun s => Student.section s = X)
                         (Quiz.students quiz)) by (rewrite E; left).
      apply list_elem_of_filter in Hs as [HX Hs]. auto.
  - intros X HX. apply get_section_average_none.
    intros s Hs E. apply HX, section_listed. eauto.
Qed.

Lemma get_all_sections_spec_witness :
  eval (Quiz.get_section_average "C") Scenario.two_sections = Return 0.
Proof.
  destruct (get_all_sections_spec Scenario.two_sections)
    as (sections & Hsections & _ & _ & _ & Hnone).
  apply Hnone. injection Hsections as <-.
  apply (bool_decide_unpack _). vm_compute. exact I.
Defined.

(** X7. The sections partition the class: the lists that
    [get_students_by_section] returns for the labels of [get_all_sections]
    are all non-empty and, put together, hold every student of the quiz
    exactly as often as the quiz does. *)
Theorem sections_partition_students (quiz : Quiz.t) :
  ∃ sections groups,
    eval Quiz.get_all_sections quiz = Return sections
    ∧ Forall2 (fun X g => eval (Quiz.get_students_by_section X) quiz = Return g)
        sections groups
    ∧ Forall (fun g => g ≠ []) groups
    ∧ concat groups ≡ₚ Quiz.students quiz.
Proof.
  set (sections := Py.list_of_set (map Student.section (Quiz.students quiz))).
  exists sections,
    (map (fun X => filter (fun s => Student.section s = X) (Quiz.students quiz))
       sections).
  split; [apply get_all_sections_eval|]. split; [|split].
  - induction sections as [|X rest IH]; simpl; constructor;
      [apply get_students_by_section_eval | exact IH].
  - apply Forall_forall. intros g Hg.
    apply list_elem_of_fmap in Hg as (X & -> & HX).
    apply section_listed in HX as (s & Hs & HX).
    intros E. apply (filter_nil_not_elem_of _ _ s E HX Hs).
  - apply (concat_groups Student.section).
    + apply list_of_set_spec.
    + intros s Hs. apply section_listed. eauto.
Qed.

End Sections.

Section WeightedAverages.

Local Open Scope Q_scope.








End WeightedAverages.

(** ** Percentages of well-formed data *)

Section WellFormedData.

Local Open Scope Q_scope.

Lemma ratio_in_range (a b : Q) :
  0 <= a → a <= b → 0 < b → 0 <= a / b * 100 <= 100.
Proof.
  intros Ha Hab Hb.
  assert (H0 : 0 <= a / b).
  { apply Qle_shift_div_l; [exact Hb|]. rewrite Qmult_0_l. exact Ha. }
  assert (H1 : a / b <= 1).
  { apply Qle_shift_div_r; [exact Hb|]. rewrite Qmult_1_l. exact Hab. }
  split.
  - apply Qmult_le_0_compat; [exact H0 | discriminate].
  - apply Qle_trans with (1 * 100); [|rewrite Qmult_1_l; apply Qle_refl].
    apply Qmult_le_compat_r; [exact H1 | discriminate].
Qed.

Lemma positive_of_nonzero (b : Q) : 0 <= b → ¬ b == 0 → 0 < b.
Proof.
  intros Hb Hnz. destruct (Qle_lt_or_eq _ _ Hb) as [H|H]; [exact H|].
  destruct Hnz. symmetry. exact H.
Qed.

(** X11. On data as the model expects it, with
    [0 <= points_earned <= points], the score percentage of a response
    lies between 0 and 100. *)
Theorem score_percentage_in_range (r : StudentResponse.t) (q : Question.t) :
  0 <= StudentResponse.points_earned r →
  StudentResponse.points_earned r <= Question.points q →
  ∃ v, StudentResponse.get_score_percentage r q = Return v ∧ 0 <= v <= 100.
Proof.
  intros H0 H1. destruct (Qeq_dec (Question.points q) 0) as [Hz|Hnz].
  - exists 0. split; [apply get_score_percentage_zero, Hz|].
    split; discriminate.
  - eexists. split; [apply get_score_percentage_nonzero, Hnz|].
    apply ratio_in_range; [exact H0 | exact H1 |].
    apply positive_of_nonzero; [|exact Hnz].
    apply Qle_trans with (StudentResponse.points_earned r); assumption.
Qed.

Lemma score_percentage_in_range_witness :
  ∃ v, StudentResponse.get_score_percentage
         (StudentResponse.mk 1 "n = 1" 4 false) Scenario.recursion_q = Return v
       ∧ 0 <= v <= 100.
Proof.
  apply (score_percentage_in_range
           (StudentResponse.mk 1 "n = 1" 4 false) Scenario.recursion_q);
    discriminate.
Defined.








End WellFormedData.

(** ** More on weak topics *)

Section MoreWeakTopics.

Local Open Scope Q_scope.

Lemma get_weak_topics_elem (s : Student.t) (questions : list Question.t)
    (threshold : Q) :
  ∃ topics,
    Student.get_weak_topics s questions threshold = Return topics
    ∧ ∀ topic, topic ∈ topics ↔ Spec.weak_topic s questions threshold topic.
Proof.
  unfold Student.get_weak_topics.
  destruct (weak_topics_loop_spec questions threshold (Student.responses s) [])
    as (acc & -> & Hacc).
  exists (Py.list_of_set acc). split; [reflexivity|].
  intros topic. rewrite (proj2 (list_of_set_spec acc)), Hacc.
  unfold Spec.weak_topic.
  split; [intros [H | H]; [inversion H | exact H] | intros H; right; exact H].
Qed.

(** X13. Raising the threshold never removes a weak topic; and whatever the
    threshold, every topic reported is the [mapped_topic] of a question of
    the list that one of the student's responses refers to. *)
Theorem weak_topics_monotone (s : Student.t) (questions : list Question.t)
    (threshold threshold' : Q) :
  threshold <= threshold' →
  ∃ low high,
    Student.get_weak_topics s questions threshold = Return low
    ∧ Student.get_weak_topics s questions threshold' = Return high
    ∧ (∀ topic, topic ∈ low → topic ∈ high)
    ∧ (∀ topic, topic ∈ high →
         ∃ q r, q ∈ questions ∧ r ∈ Student.responses s
                ∧ Question.question_id q = StudentResponse.question_id r
                ∧ Question.mapped_topic q = Some topic).
Proof.
  intros Hle.
  destruct (get_weak_topics_elem s questions threshold) as (low & -> & Hlow).
  destruct (get_weak_topics_elem s questions threshold') as (high & -> & Hhigh).
  exists low, high. split; [reflexivity|]. split; [reflexivity|]. split.
  - intros topic Ht. apply Hhigh. apply Hlow in Ht
      as (Hne & r & Hr & q & Hq & Hm & pct & Hpct & Hlt).
    split; [exact Hne|]. exists r. split; [exact Hr|]. exists q.
    split; [exact Hq|]. split; [exact Hm|]. exists pct. split; [exact Hpct|].
    apply Qlt_le_trans with threshold; assumption.
  - intros topic Ht. apply Hhigh in Ht as (_ & r & Hr & q & Hq & Hm & _).
    apply (next_or_none_key_sound _ _ Z_eqb_iff) in Hq as [Hin Hid].
    exists q, r. auto.
Qed.

Lemma weak_topics_monotone_witness :
  ∃ low high,
    Student.get_weak_topics Scenario.S1
      [Scenario.recursion_q; Scenario.arrays_q] 70 = Return low
    ∧ Student.get_weak_topics Scenario.S1
        [Scenario.recursion_q; Scenario.arrays_q] 95 = Return high
    ∧ (∀ topic, topic ∈ low → topic ∈ high).
Proof.
  destruct (weak_topics_monotone Scenario.S1
              [Scenario.recursion_q; Scenario.arrays_q] 70 95)
    as (low & high & Hlow & Hhigh & Hsub & _); [discriminate|].
  exists low, high. auto.
Defined.

(** X14. A question worth 0 points always counts against its topic: a
    response to it scores 0%, so its non-empty mapped topic is reported as
    weak under every positive threshold, whatever was earned and whether
    or not the response is marked correct. *)
Theorem ungraded_question_is_weak (s : Student.t) (questions : list Question.t)
    (threshold : Q) (r : StudentResponse.t) (q : Question.t) (topic : string) :
  r ∈ Student.responses s →
  Py.next_or_none
    (fun q' => Z.eqb (Question.question_id q') (StudentResponse.question_id r))
    questions = Some q →
  Question.points q == 0 →
  Question.mapped_topic q = Some topic →
  topic ≠ "" →
  0 < threshold →
  ∃ topics,
    Student.get_weak_topics s questions threshold = Return topics
    ∧ topic ∈ topics.
Proof.
  intros Hr Hq Hzero Hm Hne Hth.
  destruct (get_weak_topics_elem s questions threshold) as (topics & -> & Hiff).
  exists topics. split; [reflexivity|]. apply Hiff.
  split; [exact Hne|]. exists r. split; [exact Hr|]. exists q.
  split; [exact Hq|]. split; [exact Hm|]. exists 0.
  split; [apply get_score_percentage_zero, Hzero | exact Hth].
Qed.

Lemma ungraded_question_is_weak_witness :
  ∃ topics,
    Student.get_weak_topics Cases.S5 [Cases.ungraded_q] (1 # 100) = Return topics
    ∧ "Reading" ∈ topics.
Proof.
  apply (ungraded_question_is_weak Cases.S5 [Cases.ungraded_q] (1 # 100)
           (StudentResponse.mk 3 "yes" 0 true) Cases.ungraded_q "Reading").
  - left.
  - reflexivity.
  - reflexivity.
  - reflexivity.
  - discriminate.
  - reflexivity.
Defined.

Lemma weak_topics_loop_ext (questions questions' : list Question.t)
    (threshold : Q) :
  (∀ k, Py.next_or_none (fun q => Z.eqb (Question.question_id q) k) questions'
        = Py.next_or_none (fun q => Z.eqb (Question.question_id q) k) questions) →
  ∀ responses acc,
    Student.weak_topics_loop questions' threshold acc responses
    = Student.weak_topics_loop questions threshold acc responses.
Proof.
  intros Hsame. induction responses as [|r rest IH]; intros acc; [reflexivity|].
  cbn [Student.weak_topics_loop]. unfold Student.weak_topics_step.
  rewrite Hsame.
  destruct (Student.weak_topics_step questions threshold acc r) eqn:E;
    unfold Student.weak_topics_step in E; rewrite E;
    cbn [mbind outcome_bind]; [apply IH | reflexivity].
Qed.

(** X15. A question added under an id that is already in use is never
    consulted by [get_weak_topics], which keeps returning what it returned
    before, while [get_total_possible] does count its points. *)
Theorem duplicate_question_is_shadowed (quiz : Quiz.t) (q : Question.t)
    (s : Student.t) (threshold : Q) :
  (∃ q', q' ∈ Quiz.questions quiz
         ∧ Question.question_id q' = Question.question_id q) →
  Student.get_weak_topics s
    (Quiz.questions (exec (Quiz.add_question q) quiz)) threshold
  = Student.get_weak_topics s (Quiz.questions quiz) threshold
  ∧ ∃ possible possible',
      Student.get_total_possible s (Quiz.questions quiz) = Return possible
      ∧ Student.get_total_possible s
          (Quiz.questions (exec (Quiz.add_question q) quiz)) = Return possible'
      ∧ possible' == possible + Question.points q.
Proof.
  intros (q' & Hq' & Hid).
  unfold exec, Quiz.add_question, assign.
  cbn [snd Quiz.set_questions Quiz.questions]. split.
  - unfold Student.get_weak_topics.
    rewrite (weak_topics_loop_ext (Quiz.questions quiz)); [reflexivity|].
    intros k. rewrite next_or_none_app.
    destruct (Py.next_or_none _ (Quiz.questions quiz)) eqn:E; [reflexivity|].
    unfold Py.next_or_none. simpl.
    destruct (Z.eqb_spec (Question.question_id q) k) as [Ek|Ek]; [|reflexivity].
    pose proof (proj1 (next_or_none_None _ _) E q' Hq') as Hk.
    cbv beta in Hk. rewrite Hid, Ek, Z.eqb_refl in Hk. discriminate Hk.
  - destruct (get_total_possible_returns s (Quiz.questions quiz))
      as (x & Hx & Hxt).
    destruct (get_total_possible_returns s (Quiz.questions quiz ++ [q]))
      as (x' & Hx' & Hxt').
    exists x, x'. split; [exact Hx|]. split; [exact Hx'|].
    rewrite Hxt', Hxt. unfold Spec.studentTotalPossible.
    rewrite map_app, total_app. simpl. ring.
Qed.

Lemma duplicate_question_is_shadowed_witness :
  Student.get_weak_topics Scenario.S1
    (Quiz.questions (exec (Quiz.add_question Cases.recursion_again)
                       Cases.two_questions)) 70
  = Student.get_weak_topics Scenario.S1 (Quiz.questions Cases.two_questions) 70.
Proof.
  apply (duplicate_question_is_shadowed Cases.two_questions
           Cases.recursion_again Scenario.S1 70).
  exists Scenario.recursion_q. split; [left | reflexivity].
Defined.

End MoreWeakTopics.

(** ** More on strings *)

Section MoreStrings.

Lemma append_cons (x : ascii) (a b : string) :
  String.append (String x a) b = String x (String.append a b).
Proof. reflexivity. Qed.


Lemma append_empty_r (a : string) : String.append a "" = a.
Proof.
  induction a as [|x a IH]; [reflexivity|].
  rewrite append_cons, IH. reflexivity.
Qed.

Lemma substring_refl (s : string) : Spec.substring s s.
Proof. exists "", "". rewrite append_empty_r. reflexivity. Qed.




Lemma lower_char_idem (c : ascii) :
  Py.lower_char (Py.lower_char c) = Py.lower_char c.
Proof. destruct c as [[] [] [] [] [] [] [] []]; reflexivity. Qed.

(** Lowering a lowered string changes nothing. *)
Lemma lower_idem (s : string) : Py.lower (Py.lower s) = Py.lower s.
Proof.
  induction s as [|c s IH]; simpl; [reflexivity|].
  rewrite lower_char_idem, IH. reflexivity.
Qed.

End MoreStrings.

(** ** More on the syllabus *)

Section MoreSyllabus.


(** X16. After [add_topic t], a name lookup that succeeded before still
    returns the same topic, so a topic added under a name that is already
    in use (up to letter case) is never returned; a failed lookup of a
    differently spelled name still fails; and [t] is returned for every
    query that equals its name up to letter case when that query found
    nothing before. *)
Theorem add_topic_then_lookup (syl : Syllabus.t) (t : Topic.t) (name : string) :
  (∀ t', eval (Syllabus.get_topic_by_name name) syl = Return (Some t') →
         eval (Syllabus.get_topic_by_name name)
           (exec (Syllabus.add_topic t) syl) = Return (Some t'))
  ∧ (eval (Syllabus.get_topic_by_name name) syl = Return None →
     Py.lower (Topic.name t) ≠ Py.lower name →
     eval (Syllabus.get_topic_by_name name)
       (exec (Syllabus.add_topic t) syl) = Return None)
  ∧ (eval (Syllabus.get_topic_by_name name) syl = Return None →
     Py.lower (Topic.name t) = Py.lower name →
     eval (Syllabus.get_topic_by_name name)
       (exec (Syllabus.add_topic t) syl) = Return (Some t)).
Proof.
  rewrite !get_topic_by_name_eval.
  unfold exec, Syllabus.add_topic, assign.
  cbn [snd Syllabus.set_topics Syllabus.topics].
  rewrite !next_or_none_app. split; [|split].
  - intros t' [= ->]. reflexivity.
  - intros [= ->] Hne. unfold Py.next_or_none. simpl.
    apply String.eqb_neq in Hne. rewrite Hne. reflexivity.
  - intros [= ->] Heq. unfold Py.next_or_none. simpl.
    apply String.eqb_eq in Heq. rewrite Heq. reflexivity.
Qed.

Lemma add_topic_then_lookup_witness :
  eval (Syllabus.get_topic_by_name "functions")
    (exec (Syllabus.add_topic Cases.functions_upper) Scenario.cs101)
  = Return (Some Scenario.functions)
  ∧ eval (Syllabus.get_topic_by_name "RECURSION")
      (exec (Syllabus.add_topic Cases.recursion) Scenario.cs101)
    = Return (Some Cases.recursion)
  ∧ eval (Syllabus.get_topic_by_name "Sorting")
      (exec (Syllabus.add_topic Cases.recursion) Scenario.cs101)
    = Return None.
Proof.
  split; [|split].
  - apply (add_topic_then_lookup Scenario.cs101 Cases.functions_upper "functions").
    reflexivity.
  - apply (add_topic_then_lookup Scenario.cs101 Cases.recursion "RECURSION");
      reflexivity.
  - apply (add_topic_then_lookup Scenario.cs101 Cases.recursion "Sorting").
    + reflexivity.
    + discriminate.
Defined.

Lemma get_all_topic_names_eval (syl : Syllabus.t) :
  eval Syllabus.get_all_topic_names syl
  = Return (map Topic.name (Syllabus.topics syl)).
Proof. reflexivity. Qed.

Lemma get_topic_by_name_some (syl : Syllabus.t) (name : string) :
  (∃ t, eval (Syllabus.get_topic_by_name name) syl = Return (Some t))
  ↔ ∃ t, t ∈ Syllabus.topics syl ∧ Py.lower (Topic.name t) = Py.lower name.
Proof.
  rewrite get_topic_by_name_eval. split.
  - intros (t & [= H]).
    apply (next_or_none_key_sound (fun t => Py.lower (Topic.name t))
             _ string_eqb_iff) in H.
    exists t. exact H.
  - intros (t & Ht & Hname).
    destruct (Py.next_or_none _ (Syllabus.topics syl)) as [t'|] eqn:E; [eauto|].
    pose proof (proj1 (next_or_none_None _ _) E t Ht) as Hno.
    cbv beta in Hno. apply String.eqb_neq in Hno. contradiction.
Qed.

(** X17. [get_all_topic_names] lists one name per topic, in the order of
    the syllabus; [get_topic_by_name] finds a topic for a query exactly
    when the lowered query is the lowering of a listed name, so every
    listed name can be looked up, and what is found carries that name up
    to letter case. *)
Theorem topic_names_are_found (syl : Syllabus.t) :
  ∃ names,
    eval Syllabus.get_all_topic_names syl = Return names
    ∧ Forall2 (fun t n => Topic.name t = n) (Syllabus.topics syl) names
    ∧ (∀ query,
         (∃ t, eval (Syllabus.get_topic_by_name query) syl = Return (Some t))
         ↔ Py.lower query ∈ map Py.lower names)
    ∧ (∀ n, n ∈ names →
         ∃ t, eval (Syllabus.get_topic_by_name n) syl = Return (Some t)
              ∧ Py.lower (Topic.name t) = Py.lower n).
Proof.
  exists (map Topic.name (Syllabus.topics syl)).
  split; [apply get_all_topic_names_eval|]. split; [|split].
  - induction (Syllabus.topics syl); simpl; constructor; auto.
  - intros query. rewrite get_topic_by_name_some, map_map, list_elem_of_fmap.
    split; intros (t & H1 & H2); exists t; auto.
  - intros n Hn. apply list_elem_of_fmap in Hn as (t & -> & Ht).
    destruct (proj2 (get_topic_by_name_some syl (Topic.name t))) as [t' Ht'];
      [eauto|].
    exists t'. split; [exact Ht'|].
    rewrite get_topic_by_name_eval in Ht'. injection Ht' as Ht'.
    apply (next_or_none_key_sound (fun t => Py.lower (Topic.name t))
             _ string_eqb_iff) in Ht'.
    apply Ht'.
Qed.

Lemma topic_names_are_found_witness :
  ∃ t, eval (Syllabus.get_topic_by_name "Functions") Scenario.cs101
       = Return (Some t)
       ∧ Py.lower (Topic.name t) = "functions".
Proof.
  destruct (topic_names_are_found Scenario.cs101)
    as (names & Hnames & _ & _ & Hfound).
  apply (Hfound "Functions"). injection Hnames as <-. right. left.
Defined.

End MoreSyllabus.

Section SearchAndLookup.

(** X18. Lookup and search agree: the topic [get_topic_by_name] returns
    for a query is among the topics [search_topics] returns for the same
    query. *)
Theorem found_by_name_is_found_by_search (syl : Syllabus.t) (query : string)
    (t : Topic.t) :
  eval (Syllabus.get_topic_by_name query) syl = Return (Some t) →
  ∃ found, eval (Syllabus.search_topics query) syl = Return found ∧ t ∈ found.
Proof.
  rewrite get_topic_by_name_eval, search_topics_eval. intros [= H].
  apply (next_or_none_key_sound (fun t => Py.lower (Topic.name t))
           _ string_eqb_iff) in H as [Hin Hname].
  eexists. split; [reflexivity|].
  apply list_elem_of_filter. split; [|exact Hin].
  apply contains_keyword_iff. left. rewrite Hname. apply substring_refl.
Qed.

Lemma found_by_name_is_found_by_search_witness :
  ∃ found,
    eval (Syllabus.search_topics "FUNCTIONS") Scenario.cs101 = Return found
    ∧ Scenario.functions ∈ found.
Proof.
  apply (found_by_name_is_found_by_search Scenario.cs101 "FUNCTIONS"
           Scenario.functions).
  reflexivity.
Defined.




(** X20. [add_topic] only appends: names and search results of the topics
    that were there stay as they were, in order; the new name comes last,
    and the new topic comes last in the results of exactly the keywords it
    contains. *)
Theorem add_topic_appends (syl : Syllabus.t) (t : Topic.t) (keyword : string) :
  ∃ names found,
    eval Syllabus.get_all_topic_names syl = Return names
    ∧ eval (Syllabus.search_topics keyword) syl = Return found
    ∧ eval Syllabus.get_all_topic_names (exec (Syllabus.add_topic t) syl)
      = Return (names ++ [Topic.name t])
    ∧ eval (Syllabus.search_topics keyword) (exec (Syllabus.add_topic t) syl)
      = Return (found ++ if Topic.contains_keyword t keyword then [t] else []).
Proof.
  eexists _, _. split; [apply get_all_topic_names_eval|].
  split; [apply search_topics_eval|].
  rewrite get_all_topic_names_eval, search_topics_eval.
  unfold exec, Syllabus.add_topic, assign.
  cbn [snd Syllabus.set_topics Syllabus.topics].
  rewrite map_app, filter_app. split; [reflexivity|].
  f_equal. f_equal. rewrite filter_cons, filter_nil.
  destruct (Topic.contains_keyword t keyword);
    destruct (decide (_ = true)); congruence.
Qed.

(** X21. Queries are read without regard to letter case: two queries with
    the same lowering get the same answers from [get_topic_by_name] and
    [search_topics], and lowering a query beforehand changes neither
    answer. *)
Theorem queries_ignore_case (syl : Syllabus.t) (query query' : string) :
  (Py.lower query = Py.lower query' →
   eval (Syllabus.get_topic_by_name query) syl
   = eval (Syllabus.get_topic_by_name query') syl
   ∧ eval (Syllabus.search_topics query) syl
     = eval (Syllabus.search_topics query') syl)
  ∧ eval (Syllabus.get_topic_by_name (Py.lower query)) syl
    = eval (Syllabus.get_topic_by_name query) syl
  ∧ eval (Syllabus.search_topics (Py.lower query)) syl
    = eval (Syllabus.search_topics query) syl.
Proof.
  assert (Hsame : ∀ q q', Py.lower q = Py.lower q' →
            eval (Syllabus.get_topic_by_name q) syl
            = eval (Syllabus.get_topic_by_name q') syl
            ∧ eval (Syllabus.search_topics q) syl
              = eval (Syllabus.search_topics q') syl).
  { intros q q' E. split.
    - rewrite !get_topic_by_name_eval, E. reflexivity.
    - unfold eval, Syllabus.search_topics, attr, mbind, method_bind, mret,
        method_ret. simpl. f_equal. apply filter_ext. intros t.
      unfold Topic.contains_keyword. rewrite E. reflexivity. }
  split; [apply Hsame|].
  apply Hsame, lower_idem.
Qed.

Lemma queries_ignore_case_witness :
  eval (Syllabus.get_topic_by_name "fUnCtIoNs") Scenario.cs101
  = eval (Syllabus.get_topic_by_name "FUNCTIONS") Scenario.cs101
  ∧ eval (Syllabus.search_topics "fUnCtIoNs") Scenario.cs101
    = eval (Syllabus.search_topics "FUNCTIONS") Scenario.cs101.
Proof.
  destruct (queries_ignore_case Scenario.cs101 "fUnCtIoNs" "FUNCTIONS")
    as [Hsame _].
  apply Hsame. reflexivity.
Defined.

(** X22. Every topic of the syllabus is found by searching for its own
    name, for its description, and for any of its subtopics, in any letter
    case. *)
Theorem topic_found_by_its_own_words (syl : Syllabus.t) (t : Topic.t)
    (keyword : string) :
  t ∈ Syllabus.topics syl →
  Py.lower keyword = Py.lower (Topic.name t)
  ∨ (∃ d, Topic.description t = Some d ∧ Py.lower keyword = Py.lower d)
  ∨ (∃ sub, sub ∈ Topic.subtopics t ∧ Py.lower keyword = Py.lower sub) →
  ∃ found, eval (Syllabus.search_topics keyword) syl = Return found ∧ t ∈ found.
Proof.
  intros Hin Hword. rewrite search_topics_eval.
  eexists. split; [reflexivity|].
  apply list_elem_of_filter. split; [|exact Hin].
  apply contains_keyword_iff.
  destruct Hword as [E | [(d & Hd & E) | (sub & Hsub & E)]].
  - left. rewrite E. apply substring_refl.
  - right. left. exists d. split; [exact Hd|]. rewrite E. apply substring_refl.
  - right. right. exists sub. split; [exact Hsub|].
    rewrite E. apply substring_refl.
Qed.

Lemma topic_found_by_its_own_words_witness :
  ∃ found,
    eval (Syllabus.search_topics "for loops") Scenario.cs101 = Return found
    ∧ Scenario.iteration ∈ found.
Proof.
  apply (topic_found_by_its_own_words Scenario.cs101 Scenario.iteration
           "for loops").
  - left.
  - right. right. exists "For Loops". split; [right; left | reflexivity].
Defined.

End SearchAndLookup.

(** ** Order of the responses *)

Section ResponseOrder.

Local Open Scope Q_scope.



End ResponseOrder.
